(** * Meeting recorder backend: transcript lifecycle

    A shallow embedding of [src/main.py] and [src/schemas.py]: the provider
    client ([_aai_headers], [upload_to_assemblyai], [create_transcript],
    [fetch_transcript]), the result normalizer ([to_speaker_segments]) and the
    two handlers that drive the meeting lifecycle ([upload_meeting],
    [get_meeting]).

    Python values are an inductive type, dictionaries are finite maps with
    string keys, Python floats are IEEE binary64 numbers, and a handler is a
    function from the service state (the "meeting" collection and a log of
    the effects performed so far) to a result and a new state. *)

From Stdlib Require Import ZArith String Ascii List Bool.
From Stdlib Require Import Floats.PrimFloat Floats.SpecFloat Floats.FloatOps.
From stdpp Require Import gmap strings list fin_maps.

Local Open Scope Z_scope.
Local Open Scope string_scope.

Set Warnings "-register-all".

(** ** Python values *)

(** What [resp.json()] can return (None, booleans, integers, floats, strings,
    lists, dictionaries), and the [ObjectId] the store keeps under ["_id"].
    An [ObjectId] is represented by its 24 lower-case hexadecimal digits,
    which is what [str] gives for it. *)
Inductive value : Type :=
| VNone
| VBool (b : bool)
| VInt (z : Z)
| VFloat (f : float)
| VStr (s : string)
| VList (l : list value)
| VDict (d : gmap string value)
| VObjectId (o : string).

(** A document of the store, a JSON object of the provider, a [dict]. *)
Abbreviation dict := (gmap string value).

(** Python's truth value of an object ([if x], [not x], [x or y]). *)
Definition truthy (v : value) : bool :=
  match v with
  | VNone => false
  | VBool b => b
  | VInt z => negb (Z.eqb z 0)
  | VFloat f => negb (PrimFloat.eqb f 0%float)
  | VStr s => negb (String.eqb s "")
  | VList l => match l with [] => false | _ :: _ => true end
  | VDict d => match map_to_list d with [] => false | _ :: _ => true end
  | VObjectId _ => true
  end.

(** [a or b]. *)
Definition py_or (a b : value) : value := if truthy a then a else b.

(** [d.get(k)] and [d.get(k, dflt)] on a dictionary. *)
Definition get (d : dict) (k : string) : value := default VNone (d !! k).
Definition get_or (d : dict) (k : string) (dflt : value) : value := default dflt (d !! k).

(** [v == s] for a string literal [s]. *)
Definition eq_str (v : value) (s : string) : bool :=
  match v with
  | VStr t => String.eqb t s
  | _ => false
  end.

(** ** Exceptions and results *)

(** The exceptions the modelled code can raise. [HTTPException] is FastAPI's;
    every other one is left uncaught by the handlers. *)
Inductive exn : Type :=
| HTTPException (status_code : Z) (detail : string)
| InvalidId
| ValidationError
| AttributeError
| TypeError
| KeyError
| IndexError
| OverflowError
| JSONDecodeError
| RequestException.

(** The status of the HTTP response a handler's exception turns into: the
    exception's own for [HTTPException], 500 for an uncaught one. *)
Definition response_status (e : exn) : Z :=
  match e with
  | HTTPException status_code _ => status_code
  | _ => 500
  end.

Inductive result (A : Type) : Type :=
| Ok (a : A)
| Raise (e : exn).
Arguments Ok {A} a.
Arguments Raise {A} e.

#[global] Instance result_ret : MRet result := fun A a => Ok a.
#[global] Instance result_bind : MBind result := fun A B f r =>
  match r with
  | Ok a => f a
  | Raise e => Raise e
  end.

(** [v.get(k)] and [v.get(k, dflt)] on an arbitrary object: only a dictionary
    has the method. *)
Definition attr_get (v : value) (k : string) : result value :=
  match v with
  | VDict d => Ok (get d k)
  | _ => Raise AttributeError
  end.

Definition attr_get_or (v : value) (k : string) (dflt : value) : result value :=
  match v with
  | VDict d => Ok (get_or d k dflt)
  | _ => Raise AttributeError
  end.

(** [isinstance(v, list)]. *)
Definition is_list (v : value) : bool :=
  match v with
  | VList _ => true
  | _ => false
  end.

(** [v[0]] for a list [v]. *)
Definition item0 (v : value) : result value :=
  match v with
  | VList (x :: _) => Ok x
  | VList [] => Raise IndexError
  | _ => Raise TypeError
  end.

(** ** Floats *)

(** Conversion of a Python [int] to a [float]: the nearest binary64 number,
    ties to even, and [OverflowError] when that is out of range. *)
Definition nearest_float (z : Z) : float :=
  SF2Prim (binary_normalize prec emax z 0 false).

Definition float_of_int (z : Z) : result float :=
  let f := nearest_float z in
  if PrimFloat.is_infinity f then Raise OverflowError else Ok f.

(** [isinstance(v, (int, float))]: [bool] is a subclass of [int]. *)
Definition is_int_or_float (v : value) : bool :=
  match v with
  | VInt _ | VFloat _ | VBool _ => true
  | _ => false
  end.

(** [v / 1000.0] for a [v] that is an [int], a [bool] or a [float]. *)
Definition div_1000 (v : value) : result float :=
  match v with
  | VInt z => f ← float_of_int z; Ok (f / 1000)%float
  | VBool b => f ← float_of_int (if b then 1 else 0); Ok (f / 1000)%float
  | VFloat f => Ok (f / 1000)%float
  | _ => Raise TypeError
  end.

(** ** schemas.py *)

Record SpeakerSegment : Type := {
  speaker : option string;
  text : string;
  start : option float;
  end_ : option float;
}.

(** Validation of a field declared [Optional[str]] and of one declared [str]. *)
Definition optional_str (v : value) : result (option string) :=
  match v with
  | VNone => Ok None
  | VStr s => Ok (Some s)
  | _ => Raise ValidationError
  end.

Definition required_str (v : value) : result string :=
  match v with
  | VStr s => Ok s
  | _ => Raise ValidationError
  end.

(** [SpeakerSegment(speaker=.., text=.., start=.., end=..)]. *)
Definition SpeakerSegment_new (speaker text : value) (start end_ : option float)
  : result SpeakerSegment :=
  sp ← optional_str speaker;
  tx ← required_str text;
  Ok {| speaker := sp; text := tx; start := start; end_ := end_ |}.

Definition dump_optional_str (o : option string) : value :=
  match o with
  | Some s => VStr s
  | None => VNone
  end.

Definition dump_optional_float (o : option float) : value :=
  match o with
  | Some f => VFloat f
  | None => VNone
  end.

(** [SpeakerSegment.model_dump()]. *)
Definition SpeakerSegment_dump (s : SpeakerSegment) : value :=
  VDict (<["speaker" := dump_optional_str (speaker s)]>
        (<["text" := VStr (text s)]>
        (<["start" := dump_optional_float (start s)]>
        (<["end" := dump_optional_float (end_ s)]> ∅)))).

(** ** Result normalizer *)

(** [(x or 0) / 1000.0 if isinstance(x, (int, float)) else None]. *)
Definition seconds (x : value) : result (option float) :=
  if is_int_or_float x then f ← div_1000 (py_or x (VInt 0)); Ok (Some f)
  else Ok None.

(** The body of the loop of [to_speaker_segments], for one utterance. *)
Definition utterance_segment (utt : value) : result value :=
  sp ← attr_get utt "speaker";
  tx ← attr_get_or utt "text" (VStr "");
  st ← attr_get utt "start";
  st ← seconds st;
  en ← attr_get utt "end";
  en ← seconds en;
  seg ← SpeakerSegment_new sp tx st en;
  Ok (SpeakerSegment_dump seg).

(** [for utt in utterances: segments.append(...)]. *)
Fixpoint utterance_segments (utterances : list value) : result (list value) :=
  match utterances with
  | [] => Ok []
  | utt :: rest =>
      seg ← utterance_segment utt;
      segs ← utterance_segments rest;
      Ok (seg :: segs)
  end.

(** The elements a [for] loop draws from an object: those of a list, the keys
    of a dictionary, the characters of a string; nothing else met here is
    iterable. *)
Definition iterate (v : value) : result (list value) :=
  match v with
  | VList l => Ok l
  | VDict d => Ok (VStr <$> (map_to_list d).*1)
  | VStr s => Ok ((fun c => VStr (String c EmptyString)) <$> list_ascii_of_string s)
  | _ => Raise TypeError
  end.

Definition to_speaker_segments (provider_json : dict) : result (list value) :=
  utterances ← iterate (py_or (get provider_json "utterances") (VList []));
  segments ← utterance_segments utterances;
  match segments with
  | [] =>
      (* fallback: single segment with full text *)
      let text := get_or provider_json "text" (VStr "") in
      if truthy text then
        seg ← SpeakerSegment_new (VStr "Speaker 1") text None None;
        Ok [SpeakerSegment_dump seg]
      else Ok segments
  | _ :: _ => Ok segments
  end.

(** ** Object ids *)

Definition is_space (c : ascii) : bool :=
  let n := nat_of_ascii c in
  (n =? 32)%nat || ((9 <=? n)%nat && (n <=? 13)%nat).

Definition is_hex_digit (c : ascii) : bool :=
  let n := nat_of_ascii c in
  ((48 <=? n)%nat && (n <=? 57)%nat)
  || ((65 <=? n)%nat && (n <=? 70)%nat)
  || ((97 <=? n)%nat && (n <=? 102)%nat).

Definition lower (c : ascii) : ascii :=
  let n := nat_of_ascii c in
  if ((65 <=? n)%nat && (n <=? 90)%nat) then ascii_of_nat (n + 32) else c.

(** [bytes.fromhex]: pairs of hexadecimal digits, white space between the
    pairs skipped. The bytes are kept as their lower-case hexadecimal
    digits. *)
Fixpoint fromhex (cs : list ascii) : option (list ascii) :=
  match cs with
  | [] => Some []
  | c :: rest =>
      if is_space c then fromhex rest
      else
        match rest with
        | d :: rest' =>
            if is_hex_digit c && is_hex_digit d
            then (fun h => lower c :: lower d :: h) <$> fromhex rest'
            else None
        | [] => None
        end
  end.

(** bson's [ObjectId(oid)] for a [str]: 24 characters that [bytes.fromhex]
    accepts, [InvalidId] otherwise. *)
Definition ObjectId (oid : string) : result string :=
  if (String.length oid =? 24)%nat then
    match fromhex (list_ascii_of_string oid) with
    | Some h => Ok (string_of_list_ascii h)
    | None => Raise InvalidId
    end
  else Raise InvalidId.

(** ** The service state and its environment *)

Inductive body : Type :=
| NoBody
| Data (chunks : list (list Byte.byte))
| Json (payload : dict).

(** A call of [requests.get] or [requests.post]. *)
Record request : Type := {
  method : string;
  url : string;
  headers : list (string * string);
  content : body;
}.

(** The provider's answer: [resp.status_code], [resp.text], and what
    [resp.json()] returns ([None] when the body is not JSON). *)
Record response : Type := {
  status_code : Z;
  resp_text : string;
  resp_json : option value;
}.

(** What the process is started with and what answers it: the credential
    read by [os.getenv], the network ([None] when the request fails to
    complete), [str] of objects other than strings and object ids, and the
    store's choice of an id for a new document. *)
Record config : Type := {
  ASSEMBLYAI_API_KEY : option string;
  send : request → option response;
  repr : value → string;
  new_id : gmap string dict → string;
}.

(** Effects on the outside world, in the order they happen. *)
Inductive event : Type :=
| EvRequest (r : request)
| EvInsertOne (o : string) (d : dict)
| EvUpdateOne (o : string) (fields : dict).

(** [meetings] is [db["meeting"]]: the stored fields of each document, by
    the document's ["_id"]. *)
Record state : Type := {
  meetings : gmap string dict;
  trace : list event;
}.

Definition M (A : Type) : Type := state → result A * state.

#[global] Instance M_ret : MRet M := fun A a st => (Ok a, st).
#[global] Instance M_bind : MBind M := fun A B f m st =>
  match m st with
  | (Ok a, st') => f a st'
  | (Raise e, st') => (Raise e, st')
  end.

Definition raise {A : Type} (e : exn) : M A := fun st => (Raise e, st).

Definition lift {A : Type} (r : result A) : M A := fun st => (r, st).

Definition log (e : event) : M unit := fun st =>
  (Ok tt, {| meetings := meetings st; trace := (trace st ++ [e])%list |}).


(** ** The meeting schema and the handlers' own types *)

Record Meeting : Type := {
  title : option string;
  source : string;
  transcript_id : option string;
  provider : option string;
  status : string;
  language : option string;
  transcript : option string;
  summary : option string;
  speakers : option (list SpeakerSegment);
  raw_provider_response : option dict;
}.

(** [Meeting(title=.., source=.., transcript_id=.., provider=.., status=..)]:
    the other fields take their default, [None]. *)
Definition Meeting_new (title : value) (source : string) (transcript_id : value)
    (provider : string) (status : value) : result Meeting :=
  ti ← optional_str title;
  tid ← optional_str transcript_id;
  st ← required_str status;
  Ok {| title := ti; source := source; transcript_id := tid;
        provider := Some provider; status := st; language := None;
        transcript := None; summary := None; speakers := None;
        raw_provider_response := None |}.

(** [Meeting.model_dump()]. *)
Definition Meeting_dump (m : Meeting) : dict :=
  <["title" := dump_optional_str (title m)]>
  (<["source" := VStr (source m)]>
  (<["transcript_id" := dump_optional_str (transcript_id m)]>
  (<["provider" := dump_optional_str (provider m)]>
  (<["status" := VStr (status m)]>
  (<["language" := dump_optional_str (language m)]>
  (<["transcript" := dump_optional_str (transcript m)]>
  (<["summary" := dump_optional_str (summary m)]>
  (<["speakers" := from_option (fun l => VList (SpeakerSegment_dump <$> l)) VNone (speakers m)]>
  (<["raw_provider_response" := from_option VDict VNone (raw_provider_response m)]> ∅))))))))).

Module MeetingCreateResponse.
Record t : Type := {
  id : string;
  status : string;
}.
End MeetingCreateResponse.

(** FastAPI's [UploadFile]: [file] is what [await file.read()] returns. *)
Record UploadFile : Type := {
  filename : option string;
  content_type : option string;
  file : list Byte.byte;
}.

Section Service.

Variable cfg : config.

(** [str(v)] and the formatting of [v] in an f-string. *)
Definition str (v : value) : string :=
  match v with
  | VStr s => s
  | VObjectId o => o
  | _ => repr cfg v
  end.

(** ** Provider client *)

Definition ASSEMBLYAI_BASE : string := "https://api.assemblyai.com/v2".

Definition _aai_headers : result (list (string * string)) :=
  let key := ASSEMBLYAI_API_KEY cfg in
  if negb (truthy (dump_optional_str key)) then
    Raise (HTTPException 500 "ASSEMBLYAI_API_KEY not set in environment")
  else Ok [("authorization", default "" key)].

(** [requests.post] and [requests.get]: the request goes out, and either an
    answer comes back or the call raises. *)
Definition requests_send (r : request) : M response :=
  _ ← log (EvRequest r);
  match send cfg r with
  | Some resp => mret resp
  | None => raise RequestException
  end.

Definition requests_post (url : string) (headers : list (string * string))
    (content : body) : M response :=
  requests_send {| method := "POST"; url := url; headers := headers; content := content |}.

Definition requests_get (url : string) (headers : list (string * string)) : M response :=
  requests_send {| method := "GET"; url := url; headers := headers; content := NoBody |}.

(** [resp.json()]. *)
Definition json (resp : response) : result value :=
  match resp_json resp with
  | Some v => Ok v
  | None => Raise JSONDecodeError
  end.

Definition chunk_size : N := 5 * 1024 * 1024.

Fixpoint take (n : N) (bs : list Byte.byte) : list Byte.byte :=
  match bs with
  | [] => []
  | b :: rest => if (n =? 0)%N then [] else b :: take (N.pred n) rest
  end.

Fixpoint drop (n : N) (bs : list Byte.byte) : list Byte.byte :=
  match bs with
  | [] => []
  | b :: rest => if (n =? 0)%N then bs else drop (N.pred n) rest
  end.

(** [for i in range(0, len(file_bytes), chunk_size): yield file_bytes[i : i + chunk_size]];
    [fuel] bounds the number of chunks. *)
Fixpoint data_gen_from (fuel : nat) (file_bytes : list Byte.byte) : list (list Byte.byte) :=
  match fuel, file_bytes with
  | O, _ | _, [] => []
  | S fuel', _ :: _ => take chunk_size file_bytes :: data_gen_from fuel' (drop chunk_size file_bytes)
  end.

Definition data_gen (file_bytes : list Byte.byte) : list (list Byte.byte) :=
  data_gen_from (length file_bytes) file_bytes.

(** Upload binary file to AssemblyAI and return upload_url *)
Definition upload_to_assemblyai (file_bytes : list Byte.byte) : M value :=
  let url := ASSEMBLYAI_BASE ++ "/upload" in
  headers ← lift _aai_headers;
  resp ← requests_post url headers (Data (data_gen file_bytes));
  if (400 <=? status_code resp)%Z then
    raise (HTTPException 502 ("AssemblyAI upload error: " ++ resp_text resp))
  else
    payload ← lift (json resp);
    upload_url ← lift (attr_get payload "upload_url");
    if negb (truthy upload_url) then
      raise (HTTPException 502 "Failed to obtain upload_url from AssemblyAI")
    else mret upload_url.

Definition create_transcript (upload_url : value) : M value :=
  let url := ASSEMBLYAI_BASE ++ "/transcript" in
  auth ← lift _aai_headers;
  let headers := (auth ++ [("content-type", "application/json")])%list in
  let payload : dict :=
    <["audio_url" := upload_url]>
    (<["speaker_labels" := VBool true]>
    (<["auto_highlights" := VBool true]>
    (<["entity_detection" := VBool true]>
    (<["language_detection" := VBool true]>
    (<["summarization" := VBool true]>
    (<["summary_type" := VStr "bullets"]>
    (<["summary_model" := VStr "conversational"]>
    (<["punctuate" := VBool true]>
    (<["format_text" := VBool true]>
    (<["disfluencies" := VBool false]> ∅)))))))))) in
  resp ← requests_post url headers (Json payload);
  if (400 <=? status_code resp)%Z then
    raise (HTTPException 502 ("AssemblyAI transcript error: " ++ resp_text resp))
  else lift (json resp).

Definition fetch_transcript (transcript_id : value) : M value :=
  let url := ASSEMBLYAI_BASE ++ "/transcript/" ++ str transcript_id in
  headers ← lift _aai_headers;
  resp ← requests_get url headers;
  if (400 <=? status_code resp)%Z then
    raise (HTTPException 502 ("AssemblyAI fetch error: " ++ resp_text resp))
  else lift (json resp).

(** ** Meeting store adapter *)

(** [db["meeting"].find_one({"_id": oid})]: the document with its ["_id"],
    or [None]. *)
Definition find_one (oid : string) : M (option dict) := fun st =>
  (Ok ((fun fields => <["_id" := VObjectId oid]> fields) <$> meetings st !! oid), st).

(** [db["meeting"].update_one({"_id": oid}, {"$set": update_fields})]: the
    fields given replace or extend those of the stored document, the others
    stay. *)
Definition update_one (oid : string) (update_fields : dict) : M unit := fun st =>
  (Ok tt, {| meetings := alter (fun fields => update_fields ∪ fields) oid (meetings st);
             trace := (trace st ++ [EvUpdateOne oid update_fields])%list |}).

(** Modelled from the spec: [create_document] of the repository's
    [database.py], which is not among the sources. The spec's store adapter
    has [Insert(meeting) → id], the id assigned by the store on creation. *)
Definition create_document (collection_name : string) (data : Meeting) : M string := fun st =>
  let oid := new_id cfg (meetings st) in
  (Ok oid, {| meetings := <[oid := Meeting_dump data]> (meetings st);
              trace := (trace st ++ [EvInsertOne oid (Meeting_dump data)])%list |}).

(** ** Meeting lifecycle *)

Definition allowed_content_types : list string :=
  ["audio/mpeg"; "audio/wav"; "audio/x-wav"; "audio/webm"; "video/webm";
   "video/mp4"; "audio/mp4"; "audio/ogg"; "video/quicktime"].

Definition content_type_in (o : option string) (l : list string) : bool :=
  match o with
  | Some ct => existsb (String.eqb ct) l
  | None => false
  end.

(** Accept audio/video file, forward to AssemblyAI, create transcription job,
    and store meeting record. *)
Definition upload_meeting (f : UploadFile) : M MeetingCreateResponse.t :=
  _ ← (if negb (content_type_in (content_type f) allowed_content_types)
       then (* allow anyway; provider accepts many *) mret tt
       else mret tt);
  let file_bytes := file f in
  if (length file_bytes =? 0)%nat then
    raise (HTTPException 400 "Empty file uploaded")
  else
    upload_url ← upload_to_assemblyai file_bytes;
    transcript ← create_transcript upload_url;
    transcript_id ← lift (attr_get transcript "id");
    reported ← lift (attr_get_or transcript "status" (VStr "processing"));
    meeting_doc ← lift (Meeting_new (dump_optional_str (filename f)) "upload"
                          transcript_id "assemblyai" reported);
    inserted_id ← create_document "meeting" meeting_doc;
    mret {| MeetingCreateResponse.id := inserted_id;
            MeetingCreateResponse.status := status meeting_doc |}.

(** [not doc] for what [find_one] returns. *)
Definition not_doc (doc : option dict) : bool :=
  match doc with
  | Some d => negb (truthy (VDict d))
  | None => true
  end.

(** Lines 205 to 207 of [get_meeting]: summarization result can be in
    "summary" or "summaries" depending on API. *)
Definition summary_of (provider_json : dict) : result value :=
  let summary := get provider_json "summary" in
  if negb (truthy summary)
     && is_list (get provider_json "summaries")
     && truthy (get provider_json "summaries")
  then
    first ← item0 (get provider_json "summaries");
    attr_get first "summary"
  else Ok summary.

(** Lines 198 to 208 of [get_meeting]: the fields of the update. *)
Definition update_fields_of (status : value) (provider_json : dict) : result dict :=
  let new_status := get_or provider_json "status" status in
  let update_fields : dict :=
    <["status" := new_status]> (<["raw_provider_response" := VDict provider_json]> ∅) in
  if eq_str new_status "completed" then
    let update_fields := <["transcript" := get provider_json "text"]> update_fields in
    let update_fields :=
      <["language" := py_or (get provider_json "language_code") (get provider_json "language")]>
        update_fields in
    segments ← to_speaker_segments provider_json;
    let update_fields := <["speakers" := VList segments]> update_fields in
    summary ← summary_of provider_json;
    Ok (<["summary" := summary]> update_fields)
  else Ok update_fields.

(** [provider_json.get(..)] is the first use of what the provider answered:
    anything but a JSON object raises there. *)
Definition as_dict (v : value) : result dict :=
  match v with
  | VDict d => Ok d
  | _ => Raise AttributeError
  end.

Definition get_meeting (meeting_id : string) : M dict :=
  oid ← lift (ObjectId meeting_id);
  doc ← find_one oid;
  if not_doc doc then raise (HTTPException 404 "Meeting not found")
  else
    let doc := default ∅ doc in
    (* If not completed, try to refresh from provider *)
    let status := get doc "status" in
    let transcript_id := get doc "transcript_id" in
    doc ← (if truthy transcript_id
              && negb (eq_str status "completed" || eq_str status "error")
           then
             provider_json ← fetch_transcript transcript_id;
             provider_json ← lift (as_dict provider_json);
             update_fields ← lift (update_fields_of status provider_json);
             _ ← update_one oid update_fields;
             mret (update_fields ∪ doc)
           else mret doc);
    match doc !! "_id" with
    | Some _id => mret (<["id" := VStr (str _id)]> (delete "_id" doc))
    | None => raise KeyError
    end.

End Service.

(** * Vocabulary of the statements *)

(** The credential is configured: [ASSEMBLYAI_API_KEY] is set and not empty. *)
Definition configured (cfg : config) : bool :=
  truthy (dump_optional_str (ASSEMBLYAI_API_KEY cfg)).

(** The condition under which [get_meeting] refreshes a stored document:
    [transcript_id and status not in ("completed", "error")]. *)
Definition needs_refresh (fields : dict) : bool :=
  truthy (get fields "transcript_id")
  && negb (eq_str (get fields "status") "completed" || eq_str (get fields "status") "error").

(** The request [fetch_transcript] sends for a transcript id. *)
Definition fetch_request (cfg : config) (transcript_id : value) : request :=
  {| method := "GET";
     url := ASSEMBLYAI_BASE ++ "/transcript/" ++ str cfg transcript_id;
     headers := [("authorization", default "" (ASSEMBLYAI_API_KEY cfg))];
     content := NoBody |}.

(** The request [upload_to_assemblyai] sends for a payload. *)
Definition upload_request (cfg : config) (file_bytes : list Byte.byte) : request :=
  {| method := "POST";
     url := ASSEMBLYAI_BASE ++ "/upload";
     headers := [("authorization", default "" (ASSEMBLYAI_API_KEY cfg))];
     content := Data (data_gen file_bytes) |}.

(** The state after one more effect. *)
Definition logged (st : state) (e : event) : state :=
  {| meetings := meetings st; trace := (trace st ++ [e])%list |}.

(** [m] only adds effects to the log. *)
Definition extends {A : Type} (m : M A) : Prop :=
  ∀ st, ∃ t, trace (m st).2 = (trace st ++ t)%list.

(** The document [get_meeting] returns for stored fields: ["_id"] renamed
    to ["id"], as a string. *)
Definition to_public (oid : string) (fields : dict) : dict :=
  <["id" := VStr oid]> (delete "_id" fields).

(** The two fields every refresh writes. *)
Definition status_fields (new_status : value) (provider_json : dict) : dict :=
  <["status" := new_status]> (<["raw_provider_response" := VDict provider_json]> ∅).

(** The fields a refresh writes when the provider reports ["completed"]. *)
Definition completed_fields (new_status : value) (provider_json : dict)
    (segments : list value) (summary : value) : dict :=
  <["summary" := summary]>
  (<["speakers" := VList segments]>
  (<["language" := py_or (get provider_json "language_code") (get provider_json "language")]>
  (<["transcript" := get provider_json "text"]>
  (status_fields new_status provider_json)))).

(** The computation succeeded. *)
Definition is_ok {A : Type} (r : result A) : bool :=
  match r with
  | Ok _ => true
  | Raise _ => false
  end.

(** The result fields of a meeting. *)
Definition result_keys : list string := ["transcript"; "language"; "speakers"; "summary"].

(** The first element of the payload's list of summary objects, when there
    is one, is a JSON object. *)
Definition first_summary_is_object (provider_json : dict) : bool :=
  match get provider_json "summaries" with
  | VList (VDict _ :: _) => true
  | VList (_ :: _) => false
  | _ => true
  end.

(** The payload is one whose result fields can be computed: the normalizer
    returns its segments, and the first summary object, when there is one, is
    a JSON object. *)
Definition normalizable (provider_json : dict) : bool :=
  is_ok (to_speaker_segments provider_json) && first_summary_is_object provider_json.


(** The summary as amended: the flat summary field if it is present and
    true (not null, not empty); otherwise the inner summary field (null when
    absent) of the first element of a non-empty list of summary objects;
    otherwise the flat field as it is (null when absent). *)
Definition amended_summary (provider_json : dict) : value :=
  let flat := get provider_json "summary" in
  if truthy flat then flat
  else
    match get provider_json "summaries" with
    | VList (VDict first :: _) => get first "summary"
    | _ => flat
    end.

(** Seconds as the specification words them: the millisecond value divided
    by 1000 when it is numeric, null otherwise. *)
Definition claimed_seconds (v : value) : option float :=
  match v with
  | VInt z => Some (nearest_float z / 1000)%float
  | VFloat f => Some (f / 1000)%float
  | _ => None
  end.

(** The segment of an utterance as the specification words it: the speaker
    label copied, the text copied (the empty string if absent), the start
    and the end in seconds. *)
Definition claimed_segment (utt : value) : value :=
  match utt with
  | VDict d =>
      VDict (<["speaker" := get d "speaker"]>
            (<["text" := get_or d "text" (VStr "")]>
            (<["start" := dump_optional_float (claimed_seconds (get d "start"))]>
            (<["end" := dump_optional_float (claimed_seconds (get d "end"))]> ∅))))
  | _ => VNone
  end.






(** The synthetic segment of the fallback. *)
Definition synthetic_segment (text : value) : value :=
  VDict (<["speaker" := VStr "Speaker 1"]>
        (<["text" := text]> (<["start" := VNone]> (<["end" := VNone]> ∅)))).

(** The segments of a payload without utterances as the specification words
    them: one synthetic segment if a top-level text field exists, none
    otherwise. *)
Definition claimed_fallback (provider_json : dict) : list value :=
  match provider_json !! "text" with
  | Some text => [synthetic_segment text]
  | None => []
  end.

(** ** Sample inputs *)

Definition sample_oid : string := "507f1f77bcf86cd799439011".

(** An environment with a credential, whose provider answers every request
    with status 200 and the given JSON value. *)
Definition sample_cfg (answer : value) : config :=
  {| ASSEMBLYAI_API_KEY := Some "secret";
     send := fun _ => Some {| status_code := 200; resp_text := ""; resp_json := Some answer |};
     repr := fun _ => "";
     new_id := fun _ => sample_oid |}.

(** An environment without a credential. *)
Definition sample_cfg_no_key : config :=
  {| ASSEMBLYAI_API_KEY := None;
     send := fun _ => None;
     repr := fun _ => "";
     new_id := fun _ => sample_oid |}.

(** A store holding one meeting. *)
Definition sample_state (fields : dict) : state :=
  {| meetings := {[ sample_oid := fields ]}; trace := [] |}.

Definition processing_fields : dict :=
  <["title" := VStr "standup.mp3"]>
  (<["transcript_id" := VStr "t1"]> (<["status" := VStr "processing"]> ∅)).

Definition completed_fields_sample : dict :=
  <["transcript_id" := VStr "t1"]>
  (<["status" := VStr "completed"]> (<["transcript" := VStr "hello"]> ∅)).

Definition sample_utterance : value :=
  VDict (<["speaker" := VStr "A"]>
        (<["text" := VStr "hi"]>
        (<["start" := VInt 1000]> (<["end" := VInt 2000]> ∅)))).


Definition completed_payload : dict :=
  <["status" := VStr "completed"]>
  (<["text" := VStr "hi"]>
  (<["language_code" := VStr "en"]>
  (<["utterances" := VList [sample_utterance]]>
  (<["summaries" := VList [VDict (<["summary" := VStr "X"]> ∅)]]> ∅)))).


(** The provider's answer in [sample_cfg]. *)
Definition sample_response (answer : value) : response :=
  {| status_code := 200; resp_text := ""; resp_json := Some answer |}.

(** The payload of the specification's example of a normalized utterance. *)
Definition utterance_payload : dict := <["utterances" := VList [sample_utterance]]> ∅.


(** The payload of the specification's example of the fallback. *)
Definition flat_text_payload : dict := <["text" := VStr "hello world"]> ∅.

(** A payload whose top-level text is present and empty. *)
Definition empty_text_payload : dict := <["text" := VStr ""]> ∅.

(** ** Further vocabulary *)

(** The JSON body [create_transcript] posts for an upload URL. *)
Definition transcript_payload (upload_url : value) : dict :=
  <["audio_url" := upload_url]>
  (<["speaker_labels" := VBool true]>
  (<["auto_highlights" := VBool true]>
  (<["entity_detection" := VBool true]>
  (<["language_detection" := VBool true]>
  (<["summarization" := VBool true]>
  (<["summary_type" := VStr "bullets"]>
  (<["summary_model" := VStr "conversational"]>
  (<["punctuate" := VBool true]>
  (<["format_text" := VBool true]>
  (<["disfluencies" := VBool false]> ∅)))))))))).

(** The request [create_transcript] sends for an upload URL. *)
Definition transcript_request (cfg : config) (upload_url : value) : request :=
  {| method := "POST";
     url := ASSEMBLYAI_BASE ++ "/transcript";
     headers := [("authorization", default "" (ASSEMBLYAI_API_KEY cfg));
                 ("content-type", "application/json")];
     content := Json (transcript_payload upload_url) |}.

(** An environment with a credential, whose provider answers every request
    with status 503. *)
Definition sample_cfg_failing : config :=
  {| ASSEMBLYAI_API_KEY := Some "secret";
     send := fun _ => Some {| status_code := 503; resp_text := "busy"; resp_json := None |};
     repr := fun _ => "";
     new_id := fun _ => sample_oid |}.

(** The fields a refresh can write. *)
Definition update_keys : list string := "status" :: "raw_provider_response" :: result_keys.

(** The field [k] of the meeting stored under [oid], if any. *)
Definition stored_field (st : state) (oid k : string) : option value :=
  meetings st !! oid ≫= fun fields => fields !! k.

(** The meeting [upload_meeting] builds for a file name, the job id and the
    status the provider reports. *)
Definition new_meeting (filename transcript_id : option string) (status : string) : Meeting :=
  {| title := filename; source := "upload"; transcript_id := transcript_id;
     provider := Some "assemblyai"; status := status; language := None;
     transcript := None; summary := None; speakers := None;
     raw_provider_response := None |}.

(** What the provider answers in the sample of a successful upload: a URL and a job
    id, and no status. *)
Definition sample_job : dict :=
  <["upload_url" := VStr "https://cdn.assemblyai.com/upload/1"]> (<["id" := VStr "t9"]> ∅).

(** A value that is the dump of a [SpeakerSegment]: a dictionary of the four
    keys whose speaker is a string or null, whose text is a string, and
    whose start and end are floats or null. *)
Definition is_segment (v : value) : Prop :=
  ∃ s : SpeakerSegment, v = SpeakerSegment_dump s.

(** Closed goals are settled by evaluation. *)
Ltac by_computation := vm_compute; reflexivity.

(** * Properties *)

(** ** Running the handlers *)

Lemma bind_run {A B : Type} (m : M A) (k : A → M B) (st : state) :
  (m ≫= k) st = match m st with
                | (Ok a, st') => k a st'
                | (Raise e, st') => (Raise e, st')
                end.
Proof. reflexivity. Qed.

Ltac run :=
  repeat first
    [ rewrite bind_run
    | progress cbn [lift raise update_one log mret M_ret default from_option id negb not_doc] ].

Lemma find_one_Some (st : state) (oid : string) (fields : dict) :
  meetings st !! oid = Some fields →
  find_one oid st = (Ok (Some (<["_id" := VObjectId oid]> fields)), st).
Proof. intros H. unfold find_one. by rewrite H. Qed.

Lemma find_one_None (st : state) (oid : string) :
  meetings st !! oid = None → find_one oid st = (Ok None, st).
Proof. intros H. unfold find_one. by rewrite H. Qed.

(** A dictionary with a key is not empty, so it is true. *)
Lemma truthy_insert (k : string) (v : value) (d : dict) :
  truthy (VDict (<[k := v]> d)) = true.
Proof.
  cbn [truthy]. destruct (map_to_list (<[k := v]> d)) eqn:E; [|done].
  apply map_to_list_empty_iff in E. by apply insert_non_empty in E.
Qed.

Lemma get_insert_ne (d : dict) (k k' : string) (v : value) :
  k ≠ k' → get (<[k := v]> d) k' = get d k'.
Proof. intros. unfold get. by rewrite lookup_insert_ne. Qed.

(** [get_meeting] on a stored meeting that needs no refresh: the document as
    stored, ["_id"] renamed, and nothing done. *)
Lemma get_meeting_no_refresh (cfg : config) (st : state) (meeting_id oid : string)
    (fields : dict) :
  ObjectId meeting_id = Ok oid →
  meetings st !! oid = Some fields →
  needs_refresh fields = false →
  get_meeting cfg meeting_id st = (Ok (to_public oid fields), st).
Proof.
  intros Hid Hdoc Hskip. unfold get_meeting. rewrite Hid. run.
  rewrite (find_one_Some _ _ _ Hdoc). run.
  rewrite truthy_insert. run. rewrite !get_insert_ne by done.
  fold (needs_refresh fields). rewrite Hskip.
  run. rewrite lookup_insert_eq. cbn [str]. unfold to_public. by rewrite delete_insert_eq.
Qed.

(** ** The provider client *)

Lemma aai_headers_configured (cfg : config) :
  configured cfg = true →
  _aai_headers cfg = Ok [("authorization", default "" (ASSEMBLYAI_API_KEY cfg))].
Proof. unfold configured, _aai_headers. by intros ->. Qed.

Lemma aai_headers_unconfigured (cfg : config) :
  configured cfg = false →
  _aai_headers cfg = Raise (HTTPException 500 "ASSEMBLYAI_API_KEY not set in environment").
Proof. unfold configured, _aai_headers. by intros ->. Qed.

(** A fetch that the provider answers below 400 with a JSON body: one
    request, and the body is returned. *)
Lemma fetch_transcript_answered (cfg : config) (st : state) (transcript_id v : value)
    (resp : response) :
  configured cfg = true →
  send cfg (fetch_request cfg transcript_id) = Some resp →
  (status_code resp < 400)%Z →
  resp_json resp = Some v →
  fetch_transcript cfg transcript_id st
  = (Ok v, logged st (EvRequest (fetch_request cfg transcript_id))).
Proof.
  intros Hkey Hsend Hcode Hjson. unfold fetch_transcript.
  rewrite (aai_headers_configured _ Hkey). run.
  unfold requests_get, requests_send. run.
  fold (fetch_request cfg transcript_id). rewrite Hsend. run.
  destruct (Z.leb_spec 400 (status_code resp)); [lia|].
  unfold json. by rewrite Hjson.
Qed.

(** ** The fields of a refresh *)

Lemma update_fields_of_other (status : value) (provider_json : dict) :
  eq_str (get_or provider_json "status" status) "completed" = false →
  update_fields_of status provider_json
  = Ok (status_fields (get_or provider_json "status" status) provider_json).
Proof. intros H. unfold update_fields_of. by rewrite H. Qed.

Lemma update_fields_of_completed (status : value) (provider_json : dict) :
  eq_str (get_or provider_json "status" status) "completed" = true →
  update_fields_of status provider_json
  = (segments ← to_speaker_segments provider_json;
     summary ← summary_of provider_json;
     Ok (completed_fields (get_or provider_json "status" status) provider_json
           segments summary)).
Proof. intros H. unfold update_fields_of. by rewrite H. Qed.

(** No refresh writes ["_id"]. *)
Lemma update_fields_of_no_id (status : value) (provider_json update_fields : dict) :
  update_fields_of status provider_json = Ok update_fields →
  update_fields !! "_id" = None.
Proof.
  destruct (eq_str (get_or provider_json "status" status) "completed") eqn:E.
  - rewrite update_fields_of_completed by done.
    destruct (to_speaker_segments provider_json); [|done].
    destruct (summary_of provider_json); [|done].
    intros [= <-]. unfold completed_fields, status_fields.
    by rewrite !lookup_insert_ne.
  - rewrite update_fields_of_other by done.
    intros [= <-]. unfold status_fields. by rewrite !lookup_insert_ne.
Qed.

(** ** The refresh *)

(** [get_meeting] on a stored meeting that needs a refresh, once the
    provider has answered with a JSON object: either the fields of the
    update are computed, written in one update and merged into the document
    returned, or their computation raises and the store is left as it was. *)
Lemma get_meeting_refresh (cfg : config) (st st1 : state) (meeting_id oid : string)
    (fields provider_json : dict) :
  ObjectId meeting_id = Ok oid →
  meetings st !! oid = Some fields →
  needs_refresh fields = true →
  fetch_transcript cfg (get fields "transcript_id") st = (Ok (VDict provider_json), st1) →
  get_meeting cfg meeting_id st
  = match update_fields_of (get fields "status") provider_json with
    | Ok update_fields =>
        (Ok (to_public oid (update_fields ∪ fields)),
         {| meetings := alter (fun fields => update_fields ∪ fields) oid (meetings st1);
            trace := (trace st1 ++ [EvUpdateOne oid update_fields])%list |})
    | Raise e => (Raise e, st1)
    end.
Proof.
  intros Hid Hdoc Hrefresh Hfetch. unfold get_meeting. rewrite Hid. run.
  rewrite (find_one_Some _ _ _ Hdoc). run.
  rewrite truthy_insert. run. rewrite !get_insert_ne by done.
  fold (needs_refresh fields). rewrite Hrefresh. run. rewrite Hfetch. run.
  cbn [as_dict]. run.
  destruct (update_fields_of (get fields "status") provider_json) as [uf|e] eqn:Huf;
    [|done].
  run. rewrite lookup_union_r by eauto using update_fields_of_no_id.
  rewrite lookup_insert_eq. cbn [str]. unfold to_public.
  by rewrite delete_union, delete_insert_eq, <- delete_union.
Qed.

(** ** Reads that do not refresh *)

(** C1. For every stored meeting whose status is ["completed"] or ["error"],
    or whose transcript id is absent (missing, [None] or empty),
    [get_meeting] returns the stored document with ["_id"] renamed to ["id"]
    and leaves the state as it was: no request to the provider is logged and
    nothing is written. *)
Theorem get_meeting_settled_unchanged (cfg : config) (st : state)
    (meeting_id oid : string) (fields : dict) :
  ObjectId meeting_id = Ok oid →
  meetings st !! oid = Some fields →
  fields !! "status" = Some (VStr "completed")
    ∨ fields !! "status" = Some (VStr "error")
    ∨ truthy (get fields "transcript_id") = false →
  get_meeting cfg meeting_id st = (Ok (to_public oid fields), st).
Proof.
  intros Hid Hdoc Hsettled. apply get_meeting_no_refresh; [done..|].
  unfold needs_refresh. destruct Hsettled as [H | [H | H]].
  - unfold get at 2. rewrite H. cbn. apply andb_false_r.
  - unfold get at 2 3. rewrite H. cbn. apply andb_false_r.
  - by rewrite H.
Qed.

Lemma get_meeting_settled_unchanged_witness :
  get_meeting (sample_cfg VNone) sample_oid (sample_state completed_fields_sample)
  = (Ok (to_public sample_oid completed_fields_sample), sample_state completed_fields_sample).
Proof.
  apply get_meeting_settled_unchanged.
  - vm_compute. reflexivity.
  - vm_compute. reflexivity.
  - left. vm_compute. reflexivity.
Defined.

(** ** Rejected uploads *)

(** C7. [upload_meeting] with a zero-length file raises [HTTPException] with
    status 400 and leaves the state as it was: no request to the provider,
    no insert in the store. *)
Theorem upload_meeting_empty_file (cfg : config) (st : state)
    (name ct : option string) :
  upload_meeting cfg {| filename := name; content_type := ct; file := [] |} st
  = (Raise (HTTPException 400 "Empty file uploaded"), st)
  ∧ response_status (HTTPException 400 "Empty file uploaded") = 400%Z.
Proof.
  split; [|done]. unfold upload_meeting. rewrite bind_run.
  by destruct (negb _).
Qed.

(** ** The credential *)

(** C8. When the credential is not configured (unset or empty), each of the
    three provider operations raises [HTTPException] with status 500 and
    leaves the state as it was: no request has gone out. *)
Theorem provider_operations_need_credential (cfg : config) (st : state)
    (file_bytes : list Byte.byte) (upload_url transcript_id : value) :
  configured cfg = false →
  let e := HTTPException 500 "ASSEMBLYAI_API_KEY not set in environment" in
  upload_to_assemblyai cfg file_bytes st = (Raise e, st)
  ∧ create_transcript cfg upload_url st = (Raise e, st)
  ∧ fetch_transcript cfg transcript_id st = (Raise e, st)
  ∧ response_status e = 500%Z.
Proof.
  intros Hkey e. unfold upload_to_assemblyai, create_transcript, fetch_transcript.
  rewrite (aai_headers_unconfigured _ Hkey). by run.
Qed.

Lemma provider_operations_need_credential_witness :
  let e := HTTPException 500 "ASSEMBLYAI_API_KEY not set in environment" in
  upload_to_assemblyai sample_cfg_no_key [Byte.x52] (sample_state ∅)
    = (Raise e, sample_state ∅)
  ∧ create_transcript sample_cfg_no_key (VStr "https://cdn/upload/1") (sample_state ∅)
    = (Raise e, sample_state ∅)
  ∧ fetch_transcript sample_cfg_no_key (VStr "t1") (sample_state ∅)
    = (Raise e, sample_state ∅)
  ∧ response_status e = 500%Z.
Proof.
  apply (provider_operations_need_credential sample_cfg_no_key (sample_state ∅)).
  reflexivity.
Defined.

(** ** Unknown and malformed ids *)

(** For a well-formed id under which nothing is stored, [get_meeting] raises
    [HTTPException] with status 404. *)
Lemma get_meeting_unknown_id (cfg : config) (st : state) (meeting_id oid : string) :
  ObjectId meeting_id = Ok oid →
  meetings st !! oid = None →
  get_meeting cfg meeting_id st = (Raise (HTTPException 404 "Meeting not found"), st).
Proof.
  intros Hid Hdoc. unfold get_meeting. rewrite Hid. run.
  rewrite (find_one_None _ _ Hdoc). by run.
Qed.

Lemma get_meeting_unknown_id_witness :
  get_meeting (sample_cfg VNone) "507f1f77bcf86cd799439012" (sample_state ∅)
  = (Raise (HTTPException 404 "Meeting not found"), sample_state ∅).
Proof.
  apply (get_meeting_unknown_id _ _ _ "507f1f77bcf86cd799439012").
  - vm_compute. reflexivity.
  - vm_compute. reflexivity.
Defined.

(** C9. The id ["abc"] names no meeting of any store, and [get_meeting]
    does not answer 404 for it: [ObjectId] raises [InvalidId] before the
    store is read, the handler does not catch it, and the response has
    status 500. *)
Theorem get_meeting_malformed_id (cfg : config) (st : state) :
  get_meeting cfg "abc" st = (Raise InvalidId, st)
  ∧ response_status InvalidId = 500%Z.
Proof. split; reflexivity. Qed.

(** ** The log only grows *)

Lemma extends_bind {A B : Type} (m : M A) (k : A → M B) :
  extends m → (∀ a, extends (k a)) → extends (m ≫= k).
Proof.
  intros Hm Hk st. rewrite bind_run. destruct (Hm st) as [t Ht].
  destruct (m st) as [[a|e] st1]; cbn [snd] in *.
  - destruct (Hk a st1) as [t' Ht']. exists (t ++ t')%list.
    by rewrite Ht', Ht, (assoc_L (++)).
  - by exists t.
Qed.

Lemma extends_pure {A : Type} (r : result A) : extends (lift r).
Proof. intros st. exists []. cbn. by rewrite (right_id_L [] (++)). Qed.

Lemma extends_ret {A : Type} (a : A) : extends (mret a).
Proof. apply (extends_pure (Ok a)). Qed.

Lemma extends_raise {A : Type} (e : exn) : extends (@raise A e).
Proof. apply (extends_pure (Raise e)). Qed.

Lemma extends_log (e : event) : extends (log e).
Proof. intros st. by exists [e]. Qed.

Lemma extends_requests_send (cfg : config) (r : request) : extends (requests_send cfg r).
Proof.
  apply extends_bind; [apply extends_log|]. intros _.
  destruct (send cfg r); [apply extends_ret | apply extends_raise].
Qed.

Lemma extends_create_transcript (cfg : config) (upload_url : value) :
  extends (create_transcript cfg upload_url).
Proof.
  apply extends_bind; [apply extends_pure|]. intros auth.
  apply extends_bind; [apply extends_requests_send|]. intros resp.
  destruct (_ <=? _)%Z; [apply extends_raise | apply extends_pure].
Qed.

Lemma extends_create_document (cfg : config) (collection_name : string) (data : Meeting) :
  extends (create_document cfg collection_name data).
Proof. intros st. by eexists [_]. Qed.

(** With a credential, [upload_to_assemblyai] sends exactly its upload
    request, whatever the provider answers. *)
Lemma upload_to_assemblyai_sends (cfg : config) (st : state) (file_bytes : list Byte.byte) :
  configured cfg = true →
  (upload_to_assemblyai cfg file_bytes st).2
  = logged st (EvRequest (upload_request cfg file_bytes)).
Proof.
  intros Hkey. unfold upload_to_assemblyai.
  rewrite (aai_headers_configured _ Hkey). run.
  unfold requests_post, requests_send. run.
  fold (upload_request cfg file_bytes). fold (logged st (EvRequest (upload_request cfg file_bytes))).
  destruct (send cfg _) as [resp|]; run; [|done].
  destruct (_ <=? _)%Z; run; [done|].
  destruct (json resp) as [payload|]; run; [|done].
  destruct (attr_get payload "upload_url") as [upload_url|]; run; [|done].
  by destruct (truthy upload_url).
Qed.

(** ** The declared content type *)

(** C10. For every non-empty file, [upload_meeting] does the same whatever
    content type the request declares, and, the credential being configured,
    the first thing it does is to send the upload to the provider: nothing
    but the emptiness of the file can reject the request before that. *)
Theorem upload_meeting_ignores_content_type (cfg : config) (st : state)
    (name ct ct' : option string) (file_bytes : list Byte.byte) :
  (0 < length file_bytes)%nat →
  configured cfg = true →
  upload_meeting cfg {| filename := name; content_type := ct; file := file_bytes |} st
  = upload_meeting cfg {| filename := name; content_type := ct'; file := file_bytes |} st
  ∧ ∃ t, trace (upload_meeting cfg
                  {| filename := name; content_type := ct; file := file_bytes |} st).2
         = (trace st ++ EvRequest (upload_request cfg file_bytes) :: t)%list.
Proof.
  intros Hlen Hkey. split.
  - unfold upload_meeting. rewrite !bind_run. cbn [content_type file filename].
    by destruct (negb _), (negb _).
  - unfold upload_meeting. rewrite bind_run. cbn [content_type file filename].
    assert ((if negb (content_type_in ct allowed_content_types)
             then mret () else mret () : M unit) st = (Ok (), st)) as ->
      by by destruct (negb _).
    destruct (Nat.eqb_spec (length file_bytes) 0) as [E|_]; [lia|].
    rewrite bind_run.
    pose proof (upload_to_assemblyai_sends cfg st file_bytes Hkey) as Hup.
    destruct (upload_to_assemblyai cfg file_bytes st) as [[upload_url|e] st1];
      cbn [snd] in *; subst st1.
    + match goal with |- context [(create_transcript ?c ?u ≫= ?k) ?s] =>
        assert (extends (create_transcript c u ≫= k)) as Hrest end.
      { apply extends_bind; [apply extends_create_transcript|]. intros transcript.
        apply extends_bind; [apply extends_pure|]. intros transcript_id.
        apply extends_bind; [apply extends_pure|]. intros reported.
        apply extends_bind; [apply extends_pure|]. intros meeting_doc.
        apply extends_bind; [apply extends_create_document|]. intros inserted_id.
        apply extends_ret. }
      destruct (Hrest (logged st (EvRequest (upload_request cfg file_bytes)))) as [t Ht].
      exists t. rewrite Ht. cbn [logged trace]. by rewrite <- (assoc_L (++)).
    + by exists [].
Qed.

Lemma upload_meeting_ignores_content_type_witness :
  upload_meeting (sample_cfg VNone)
    {| filename := Some "standup.mp3"; content_type := Some "text/plain";
       file := [Byte.x52; Byte.x49] |} (sample_state ∅)
  = upload_meeting (sample_cfg VNone)
      {| filename := Some "standup.mp3"; content_type := Some "audio/mpeg";
         file := [Byte.x52; Byte.x49] |} (sample_state ∅)
  ∧ ∃ t, trace (upload_meeting (sample_cfg VNone)
                  {| filename := Some "standup.mp3"; content_type := Some "text/plain";
                     file := [Byte.x52; Byte.x49] |} (sample_state ∅)).2
         = (trace (sample_state ∅)
            ++ EvRequest (upload_request (sample_cfg VNone) [Byte.x52; Byte.x49]) :: t)%list.
Proof.
  apply upload_meeting_ignores_content_type.
  - simpl. lia.
  - reflexivity.
Defined.

(** ** Reads that refresh *)


Lemma update_fields_of_status (status : value) (provider_json update_fields : dict) :
  update_fields_of status provider_json = Ok update_fields →
  update_fields !! "status" = Some (get_or provider_json "status" status)
  ∧ update_fields !! "raw_provider_response" = Some (VDict provider_json).
Proof.
  destruct (eq_str (get_or provider_json "status" status) "completed") eqn:E.
  - rewrite update_fields_of_completed by done.
    destruct (to_speaker_segments provider_json); [|done].
    destruct (summary_of provider_json); [|done].
    intros [= <-]. unfold completed_fields, status_fields.
    split; by simplify_map_eq.
  - rewrite update_fields_of_other by done.
    intros [= <-]. unfold status_fields.
    split; by simplify_map_eq.
Qed.

Lemma summary_of_amended (provider_json : dict) :
  first_summary_is_object provider_json = true →
  summary_of provider_json = Ok (amended_summary provider_json).
Proof.
  unfold first_summary_is_object, summary_of, amended_summary.
  destruct (truthy (get provider_json "summary")); [done|].
  destruct (get provider_json "summaries") as [| | | | |[|[] l]| |]; try done.
Qed.

(** The fields of the update are computed whenever the status reported is
    not ["completed"], and for every normalizable payload. *)
Lemma update_fields_of_total (status : value) (provider_json : dict) :
  eq_str (get_or provider_json "status" status) "completed" = false
    ∨ normalizable provider_json = true →
  ∃ update_fields, update_fields_of status provider_json = Ok update_fields.
Proof.
  destruct (eq_str (get_or provider_json "status" status) "completed") eqn:E.
  - intros [|[Hsegs Hfirst]%andb_prop]; [done|].
    rewrite update_fields_of_completed by done.
    destruct (to_speaker_segments provider_json) as [segs|]; [|done].
    rewrite (summary_of_amended _ Hfirst). by eexists.
  - intros _. rewrite update_fields_of_other by done. by eexists.
Qed.

Lemma to_public_lookup (oid k : string) (fields : dict) :
  k ≠ "id" → k ≠ "_id" → to_public oid fields !! k = fields !! k.
Proof. intros. unfold to_public. by rewrite lookup_insert_ne, lookup_delete_ne. Qed.


Section Refresh.

(** A stored meeting with a transcript id and a status that is neither
    ["completed"] nor ["error"], and a provider that answers the fetch
    below 400 with a JSON object. *)
Context (cfg : config) (st : state) (meeting_id oid : string).
Context (fields : dict) (resp : response) (provider_json : dict).
Hypothesis Hid : ObjectId meeting_id = Ok oid.
Hypothesis Hdoc : meetings st !! oid = Some fields.
Hypothesis Htid : truthy (get fields "transcript_id") = true.
Hypothesis Hcompleted : eq_str (get fields "status") "completed" = false.
Hypothesis Herror : eq_str (get fields "status") "error" = false.
Hypothesis Hkey : configured cfg = true.
Hypothesis Hsend : send cfg (fetch_request cfg (get fields "transcript_id")) = Some resp.
Hypothesis Hcode : (status_code resp < 400)%Z.
Hypothesis Hjson : resp_json resp = Some (VDict provider_json).

Local Abbreviation fetch := (EvRequest (fetch_request cfg (get fields "transcript_id"))).
Local Abbreviation new_status := (get_or provider_json "status" (get fields "status")).

(** The whole run: one request; then either one update of the fields
    computed, or the exception of their computation. *)
Lemma refresh_run :
  get_meeting cfg meeting_id st
  = match update_fields_of (get fields "status") provider_json with
    | Ok update_fields =>
        (Ok (to_public oid (update_fields ∪ fields)),
         {| meetings := <[oid := update_fields ∪ fields]> (meetings st);
            trace := (trace st ++ [fetch; EvUpdateOne oid update_fields])%list |})
    | Raise e => (Raise e, logged st fetch)
    end.
Proof.
  rewrite (get_meeting_refresh cfg st (logged st fetch) meeting_id oid fields provider_json);
    [|done|done|..].
  - destruct (update_fields_of _ _) as [uf|e]; [|done].
    cbn [logged meetings trace]. rewrite (alter_alt_Some _ _ _ _ Hdoc).
    by rewrite <- (assoc_L (++)).
  - unfold needs_refresh. by rewrite Htid, Hcompleted, Herror.
  - by apply fetch_transcript_answered with resp.
Qed.




(** A refresh that observes a terminal status settles the meeting: the
    next read, whatever the provider would answer by then, returns the same
    document and does nothing. *)
Lemma terminal_refresh_settles (cfg' : config) :
  eq_str new_status "completed" = false ∨ normalizable provider_json = true →
  eq_str new_status "completed" || eq_str new_status "error" = true →
  ∃ doc st1,
    get_meeting cfg meeting_id st = (Ok doc, st1)
    ∧ get_meeting cfg' meeting_id st1 = (Ok doc, st1).
Proof.
  intros Hok Hterminal. rewrite refresh_run.
  destruct (update_fields_of_total (get fields "status") _ Hok) as [uf Huf].
  rewrite Huf. destruct (update_fields_of_status _ _ _ Huf) as [Hst _].
  eexists _, _. split; [reflexivity|].
  apply get_meeting_no_refresh; [done|apply lookup_insert_eq|].
  unfold needs_refresh, get. rewrite (lookup_union_Some_l _ _ _ _ Hst).
  cbn [default from_option id]. rewrite Hterminal. apply andb_false_r.
Qed.

End Refresh.





(** ** The normalizer *)







(** C5, as amended. For every payload without utterances (absent, null or
    empty): if the top-level text is a non-empty string,
    [to_speaker_segments] returns exactly one segment, of speaker
    ["Speaker 1"], with that text and no timing; if the top-level text is
    absent, null or empty, it returns no segment. *)
Theorem to_speaker_segments_fallback (provider_json : dict) :
  truthy (get provider_json "utterances") = false →
  (∀ s, provider_json !! "text" = Some (VStr s) → String.eqb s "" = false →
     to_speaker_segments provider_json
     = Ok [SpeakerSegment_dump {| speaker := Some "Speaker 1"; text := s;
                                  start := None; end_ := None |}])
  ∧ (truthy (get_or provider_json "text" (VStr "")) = false →
     to_speaker_segments provider_json = Ok []).
Proof.
  intros Hutt. unfold to_speaker_segments, py_or. rewrite Hutt.
  cbn [iterate mbind result_bind utterance_segments]. split.
  - intros s Htext Hs. unfold get_or. rewrite Htext.
    cbn [default from_option id truthy]. by rewrite Hs.
  - by intros ->.
Qed.

(** The specification's example of the fallback. *)
Lemma to_speaker_segments_fallback_witness :
  to_speaker_segments flat_text_payload
  = Ok [SpeakerSegment_dump {| speaker := Some "Speaker 1"; text := "hello world";
                               start := None; end_ := None |}]
  ∧ to_speaker_segments ∅ = Ok [].
Proof.
  split.
  - refine (proj1 (to_speaker_segments_fallback flat_text_payload _) "hello world" _ _);
      by_computation.
  - refine (proj2 (to_speaker_segments_fallback ∅ _) _); by_computation.
Defined.

(** C5, counterexample. A payload without utterances whose top-level text
    exists and is empty: the claim gives one synthetic segment;
    [to_speaker_segments] returns none. *)
Lemma to_speaker_segments_empty_text :
  claimed_fallback empty_text_payload = [synthetic_segment (VStr "")]
  ∧ to_speaker_segments empty_text_payload = Ok [].
Proof. split; by_computation. Qed.

Lemma terminal_refresh_settles_witness :
  ∃ doc st1,
    get_meeting (sample_cfg (VDict completed_payload)) sample_oid
      (sample_state processing_fields) = (Ok doc, st1)
    ∧ get_meeting sample_cfg_no_key sample_oid st1 = (Ok doc, st1).
Proof.
  apply (terminal_refresh_settles (sample_cfg (VDict completed_payload))
           (sample_state processing_fields) sample_oid sample_oid processing_fields
           (sample_response (VDict completed_payload)) completed_payload).
  - by_computation.
  - by_computation.
  - by_computation.
  - by_computation.
  - by_computation.
  - by_computation.
  - by_computation.
  - by_computation.
  - by_computation.
  - right. by_computation.
  - by_computation.
Defined.

(** ** The chunks of an upload *)

Lemma take_drop (n : N) (bs : list Byte.byte) : (take n bs ++ drop n bs)%list = bs.
Proof.
  revert n. induction bs as [|b rest IH]; intros n; [done|].
  cbn [take drop]. destruct (n =? 0)%N; [done|]. cbn. by rewrite IH.
Qed.

Lemma drop_length (n : N) (bs : list Byte.byte) : (length (drop n bs) ≤ length bs)%nat.
Proof.
  revert n. induction bs as [|b rest IH]; intros n; [done|].
  cbn [drop]. destruct (n =? 0)%N; [done|]. cbn [length]. specialize (IH (N.pred n)). lia.
Qed.

Lemma data_gen_from_concat (fuel : nat) (bs : list Byte.byte) :
  (length bs ≤ fuel)%nat → concat (data_gen_from fuel bs) = bs.
Proof.
  revert bs. induction fuel as [|fuel IH]; intros bs Hlen.
  - destruct bs; [done|]. cbn in Hlen. lia.
  - destruct bs as [|b rest]; [done|].
    cbn [data_gen_from concat]. rewrite IH; [apply take_drop|].
    change (drop chunk_size (b :: rest)) with (drop (N.pred chunk_size) rest).
    pose proof (drop_length (N.pred chunk_size) rest). cbn [length] in Hlen. lia.
Qed.

(** The chunks [upload_to_assemblyai] streams are the file, cut up: put end
    to end they give back its bytes, and none is empty. *)
Lemma data_gen_concat (file_bytes : list Byte.byte) :
  concat (data_gen file_bytes) = file_bytes
  ∧ Forall (fun chunk => chunk ≠ []) (data_gen file_bytes).
Proof.
  split; [by apply data_gen_from_concat|].
  unfold data_gen. generalize (length file_bytes) as fuel. intros fuel.
  revert file_bytes. induction fuel as [|fuel IH]; intros bs.
  - destruct bs; constructor.
  - destruct bs as [|b rest]; [constructor|].
    cbn [data_gen_from]. constructor; [done|apply IH].
Qed.

(** * Further properties *)

(** ** Provider errors *)

Lemma requests_send_answered (cfg : config) (st : state) (r : request) (resp : response) :
  send cfg r = Some resp →
  requests_send cfg r st = (Ok resp, logged st (EvRequest r)).
Proof. intros H. unfold requests_send. run. by rewrite H. Qed.

Lemma create_transcript_request (cfg : config) (st : state) (upload_url : value) :
  configured cfg = true →
  create_transcript cfg upload_url st
  = (resp ← requests_send cfg (transcript_request cfg upload_url);
     if (400 <=? status_code resp)%Z then
       raise (HTTPException 502 ("AssemblyAI transcript error: " ++ resp_text resp))
     else lift (json resp)) st.
Proof.
  intros Hkey. unfold create_transcript.
  rewrite (aai_headers_configured _ Hkey). by run.
Qed.



Lemma upload_to_assemblyai_answered (cfg : config) (st : state)
    (file_bytes : list Byte.byte) (resp : response) (payload : dict) (upload_url : value) :
  configured cfg = true →
  send cfg (upload_request cfg file_bytes) = Some resp →
  (status_code resp < 400)%Z →
  resp_json resp = Some (VDict payload) →
  payload !! "upload_url" = Some upload_url →
  truthy upload_url = true →
  upload_to_assemblyai cfg file_bytes st
  = (Ok upload_url, logged st (EvRequest (upload_request cfg file_bytes))).
Proof.
  intros Hkey Hsend Hcode Hjson Hu Htrue. unfold upload_to_assemblyai.
  rewrite (aai_headers_configured _ Hkey). run.
  unfold requests_post. fold (upload_request cfg file_bytes).
  rewrite (requests_send_answered _ _ _ _ Hsend).
  destruct (Z.leb_spec 400 (status_code resp)); [lia|]. run.
  unfold json. rewrite Hjson. run. cbn [attr_get]. run.
  unfold get. rewrite Hu. cbn [default from_option id]. by rewrite Htrue.
Qed.

(** [upload_to_assemblyai] returns a URL exactly when the provider answers
    the upload below 400 with a JSON object whose ["upload_url"] is true (not
    missing, not null, not empty); the URL returned is that field. *)
Lemma upload_to_assemblyai_returns (cfg : config) (st st' : state)
    (file_bytes : list Byte.byte) (upload_url : value) :
  upload_to_assemblyai cfg file_bytes st = (Ok upload_url, st')
  ↔ configured cfg = true
    ∧ st' = logged st (EvRequest (upload_request cfg file_bytes))
    ∧ truthy upload_url = true
    ∧ ∃ resp payload,
        send cfg (upload_request cfg file_bytes) = Some resp
        ∧ (status_code resp < 400)%Z
        ∧ resp_json resp = Some (VDict payload)
        ∧ payload !! "upload_url" = Some upload_url.
Proof.
  split.
  - unfold upload_to_assemblyai. destruct (configured cfg) eqn:Hkey.
    2:{ rewrite (aai_headers_unconfigured _ Hkey). by run. }
    rewrite (aai_headers_configured _ Hkey). run.
    unfold requests_post, requests_send. run.
    fold (upload_request cfg file_bytes).
    fold (logged st (EvRequest (upload_request cfg file_bytes))).
    destruct (send cfg _) as [resp|] eqn:Hsend; run; [|done].
    destruct (Z.leb_spec 400 (status_code resp)); run; [done|].
    unfold json. destruct (resp_json resp) as [[| | | | | |payload|]|] eqn:Hjson;
      run; try done.
    cbn [attr_get]. run. unfold get.
    destruct (payload !! "upload_url") as [u|] eqn:Hu; cbn [default from_option id].
    + destruct (truthy u) eqn:Htrue; run; [|done].
      intros [= <- <-]. repeat split; try done. by exists resp, payload.
    + by run.
  - intros (Hkey & -> & Htrue & resp & payload & Hsend & Hcode & Hjson & Hu).
    by apply upload_to_assemblyai_answered with resp payload.
Qed.

(** ** The size of the chunks *)

Lemma take_length (n : N) (bs : list Byte.byte) : (N.of_nat (length (take n bs)) ≤ n)%N.
Proof.
  revert n. induction bs as [|b rest IH]; intros n; [cbn; lia|].
  cbn [take]. destruct (N.eqb_spec n 0) as [->|Hn]; [cbn; lia|].
  cbn [length]. specialize (IH (N.pred n)). lia.
Qed.

(** No chunk [upload_to_assemblyai] streams is longer than [chunk_size],
    5 MiB. *)
Lemma data_gen_bounded (file_bytes : list Byte.byte) :
  Forall (fun chunk => (N.of_nat (length chunk) ≤ chunk_size)%N) (data_gen file_bytes)
  ∧ chunk_size = 5242880%N.
Proof.
  split; [|done].
  unfold data_gen. generalize (length file_bytes) as fuel. intros fuel.
  revert file_bytes. induction fuel as [|fuel IH]; intros bs.
  - destruct bs; constructor.
  - destruct bs as [|b rest]; [constructor|].
    cbn [data_gen_from]. constructor; [apply take_length|apply IH].
Qed.

(** ** Every read *)

Lemma fetch_transcript_state (cfg : config) (st : state) (transcript_id : value) :
  (∃ e, fetch_transcript cfg transcript_id st = (Raise e, st))
  ∨ (∃ r, fetch_transcript cfg transcript_id st
          = (r, logged st (EvRequest (fetch_request cfg transcript_id)))).
Proof.
  unfold fetch_transcript. destruct (configured cfg) eqn:Hkey.
  - right. rewrite (aai_headers_configured _ Hkey). run.
    unfold requests_get, requests_send. run.
    fold (fetch_request cfg transcript_id).
    fold (logged st (EvRequest (fetch_request cfg transcript_id))).
    destruct (send cfg _) as [resp|]; run; [|by eexists].
    destruct (_ <=? _)%Z; run; by eexists.
  - left. rewrite (aai_headers_unconfigured _ Hkey). run. by eexists.
Qed.

Lemma update_fields_of_keys (status : value) (provider_json update_fields : dict) (k : string) :
  update_fields_of status provider_json = Ok update_fields →
  is_Some (update_fields !! k) → k ∈ update_keys.
Proof.
  unfold update_keys, result_keys.
  destruct (eq_str (get_or provider_json "status" status) "completed") eqn:E.
  - rewrite update_fields_of_completed by done.
    destruct (to_speaker_segments provider_json); [|done].
    destruct (summary_of provider_json); [|done].
    intros [= <-] [v Hv]. unfold completed_fields, status_fields in Hv.
    repeat (apply lookup_insert_Some in Hv as [[<- _]|[_ Hv]]; [set_solver|]).
    by rewrite lookup_empty in Hv.
  - rewrite update_fields_of_other by done.
    intros [= <-] [v Hv]. unfold status_fields in Hv.
    repeat (apply lookup_insert_Some in Hv as [[<- _]|[_ Hv]]; [set_solver|]).
    by rewrite lookup_empty in Hv.
Qed.

(** The ways a read can end: an exception and nothing done; the stored
    document and nothing done; one request and an exception; one request,
    one update of the meeting read, and the updated document. *)
Lemma get_meeting_outcomes (cfg : config) (st : state) (meeting_id : string) :
  ∃ r st', get_meeting cfg meeting_id st = (r, st')
    ∧ ((∃ e, r = Raise e ∧ st' = st)
       ∨ (∃ oid fields,
            ObjectId meeting_id = Ok oid ∧ meetings st !! oid = Some fields
            ∧ r = Ok (to_public oid fields) ∧ st' = st)
       ∨ (∃ e req, r = Raise e ∧ st' = logged st (EvRequest req))
       ∨ (∃ oid fields req provider_json update_fields,
            ObjectId meeting_id = Ok oid ∧ meetings st !! oid = Some fields
            ∧ update_fields_of (get fields "status") provider_json = Ok update_fields
            ∧ r = Ok (to_public oid (update_fields ∪ fields))
            ∧ st' = {| meetings := <[oid := update_fields ∪ fields]> (meetings st);
                       trace := (trace st ++ [EvRequest req;
                                              EvUpdateOne oid update_fields])%list |})).
Proof.
  destruct (ObjectId meeting_id) as [oid|e] eqn:Hid.
  2:{ unfold get_meeting. rewrite Hid. run. eexists _, _. split; [done|]. left. by eexists. }
  destruct (meetings st !! oid) as [fields|] eqn:Hdoc.
  2:{ unfold get_meeting. rewrite Hid. run. rewrite (find_one_None _ _ Hdoc). run.
      eexists _, _. split; [done|]. left. by eexists. }
  destruct (needs_refresh fields) eqn:Hrefresh.
  2:{ rewrite (get_meeting_no_refresh _ _ _ _ _ Hid Hdoc Hrefresh).
      eexists _, _. split; [done|]. right. left. by exists oid, fields. }
  destruct (fetch_transcript_state cfg st (get fields "transcript_id"))
    as [[e Hfetch]|[r Hfetch]].
  - unfold get_meeting. rewrite Hid. run. rewrite (find_one_Some _ _ _ Hdoc). run.
    rewrite truthy_insert. run. rewrite !get_insert_ne by done.
    fold (needs_refresh fields). rewrite Hrefresh. run. rewrite Hfetch.
    eexists _, _. split; [done|]. left. by eexists.
  - destruct r as [[| | | | | |provider_json|]|e];
      try (unfold get_meeting; rewrite Hid; run; rewrite (find_one_Some _ _ _ Hdoc); run;
           rewrite truthy_insert; run; rewrite !get_insert_ne by done;
           fold (needs_refresh fields); rewrite Hrefresh; run; rewrite Hfetch; run;
           eexists _, _; split; [done|right; right; left; by eexists _, _]).
    rewrite (get_meeting_refresh _ _ _ _ _ _ _ Hid Hdoc Hrefresh Hfetch).
    destruct (update_fields_of _ _) as [uf|e] eqn:Huf.
    + eexists _, _. split; [done|]. right. right. right.
      exists oid, fields, (fetch_request cfg (get fields "transcript_id")), provider_json, uf.
      do 4 (split; [done|]). cbn [logged meetings trace].
      rewrite (alter_alt_Some _ _ _ _ Hdoc). by rewrite <- (assoc_L (++)).
    + eexists _, _. split; [done|right; right; left; by eexists _, _].
Qed.

(** Whatever the id, the store and the provider: a read sends at most one
    request, makes at most one write, an update that comes after the
    request, and never inserts. *)
Lemma get_meeting_effects (cfg : config) (st : state) (meeting_id : string) :
  ∃ t, trace (get_meeting cfg meeting_id st).2 = (trace st ++ t)%list
    ∧ (t = []
       ∨ (∃ req, t = [EvRequest req])
       ∨ (∃ req oid update_fields, t = [EvRequest req; EvUpdateOne oid update_fields])).
Proof.
  destruct (get_meeting_outcomes cfg st meeting_id)
    as (r & st' & -> & [(e & _ & ->)|[(oid & f & _ & _ & _ & ->)
         |[(e & req & _ & ->)|(oid & f & req & pj & uf & _ & _ & _ & _ & ->)]]]);
    cbn [snd logged trace].
  - exists []. split; [by rewrite (right_id_L [] (++))|by left].
  - exists []. split; [by rewrite (right_id_L [] (++))|by left].
  - eexists. split; [done|]. right. left. by eexists.
  - eexists. split; [done|]. right. right. by eexists _, _, _.
Qed.

(** A read that raises leaves the store as it was. *)
Lemma get_meeting_failure_keeps_store (cfg : config) (st st' : state)
    (meeting_id : string) (e : exn) :
  get_meeting cfg meeting_id st = (Raise e, st') → meetings st' = meetings st.
Proof.
  intros Hrun. destruct (get_meeting_outcomes cfg st meeting_id)
    as (r & st1 & Heq & [(e' & _ & E)|[(oid & f & _ & _ & E & _)
         |[(e' & req & _ & E)|(oid & f & req & pj & uf & _ & _ & _ & E & _)]]]);
    rewrite Hrun in Heq; injection Heq as <- <-; try done; by rewrite E.
Qed.

(** A read never adds or removes a meeting, and in no meeting does it change
    a field other than the six a refresh writes: the title, the source, the
    provider and the transcript id stay what they were at creation. *)
Lemma get_meeting_frame (cfg : config) (st : state) (meeting_id oid k : string) :
  k ∉ update_keys →
  dom (meetings (get_meeting cfg meeting_id st).2) = dom (meetings st)
  ∧ stored_field (get_meeting cfg meeting_id st).2 oid k = stored_field st oid k.
Proof.
  intros Hk. destruct (get_meeting_outcomes cfg st meeting_id)
    as (r & st' & -> & [(e & _ & ->)|[(o & f & _ & _ & _ & ->)
         |[(e & req & _ & ->)|(o & f & req & pj & uf & _ & Hdoc & Huf & _ & ->)]]]);
    cbn [snd logged meetings]; [done..|].
  split.
  - by apply dom_insert_lookup_L.
  - unfold stored_field. cbn [meetings]. destruct (decide (o = oid)) as [->|Hne].
    + rewrite lookup_insert_eq, Hdoc. cbn. apply lookup_union_r.
      destruct (uf !! k) eqn:E; [|done].
      destruct Hk. by eapply update_fields_of_keys.
    + by rewrite lookup_insert_ne.
Qed.

(** The document a read returns is the meeting as it is stored once the
    read is over, ["_id"] renamed: its ["id"] is the object id as a string,
    it has no ["_id"], and every other field is the stored one. *)
Lemma get_meeting_returns_stored (cfg : config) (st st' : state)
    (meeting_id : string) (doc : dict) :
  get_meeting cfg meeting_id st = (Ok doc, st') →
  ∃ oid fields,
    ObjectId meeting_id = Ok oid
    ∧ meetings st' !! oid = Some fields
    ∧ doc !! "id" = Some (VStr oid)
    ∧ doc !! "_id" = None
    ∧ ∀ k, k ≠ "id" → k ≠ "_id" → doc !! k = fields !! k.
Proof.
  intros Hrun. destruct (get_meeting_outcomes cfg st meeting_id)
    as (r & st1 & Heq & [(e' & E & _)|[(oid & f & Hid & Hdoc & E & E')
         |[(e' & req & E & _)|(oid & f & req & pj & uf & Hid & Hdoc & _ & E & E')]]]);
    rewrite Hrun in Heq; injection Heq as <- <-; try done; injection E as ->.
  - exists oid, f. rewrite E'. do 2 (split; [done|]). unfold to_public.
    split; [apply lookup_insert_eq|]. split; [by simplify_map_eq|].
    intros k ? ?. by apply to_public_lookup.
  - exists oid, (uf ∪ f). rewrite E'. cbn [meetings]. split; [done|].
    split; [apply lookup_insert_eq|]. unfold to_public.
    split; [apply lookup_insert_eq|]. split; [by simplify_map_eq|].
    intros k ? ?. by apply to_public_lookup.
Qed.

Lemma get_meeting_returns_stored_witness :
  ∃ oid fields,
    ObjectId sample_oid = Ok oid
    ∧ meetings (sample_state completed_fields_sample) !! oid = Some fields
    ∧ to_public sample_oid completed_fields_sample !! "id" = Some (VStr oid)
    ∧ to_public sample_oid completed_fields_sample !! "_id" = None
    ∧ ∀ k, k ≠ "id" → k ≠ "_id" →
        to_public sample_oid completed_fields_sample !! k = fields !! k.
Proof.
  apply (get_meeting_returns_stored (sample_cfg VNone)
           (sample_state completed_fields_sample) (sample_state completed_fields_sample)
           sample_oid).
  by_computation.
Defined.

Lemma get_meeting_failure_keeps_store_witness :
  meetings (logged (sample_state processing_fields)
              (EvRequest (fetch_request sample_cfg_failing (VStr "t1"))))
  = meetings (sample_state processing_fields).
Proof.
  apply (get_meeting_failure_keeps_store sample_cfg_failing _ _ sample_oid
           (HTTPException 502 "AssemblyAI fetch error: busy")).
  by_computation.
Defined.

Lemma get_meeting_frame_witness :
  dom (meetings (get_meeting (sample_cfg (VDict completed_payload)) sample_oid
                   (sample_state processing_fields)).2)
  = dom (meetings (sample_state processing_fields))
  ∧ stored_field (get_meeting (sample_cfg (VDict completed_payload)) sample_oid
                    (sample_state processing_fields)).2 sample_oid "transcript_id"
    = stored_field (sample_state processing_fields) sample_oid "transcript_id".
Proof.
  apply get_meeting_frame. apply (bool_decide_unpack _). vm_compute. exact I.
Defined.

(** ** What a refresh stores *)

Lemma eq_str_true (v : value) (s : string) : eq_str v s = true → v = VStr s.
Proof. destruct v; try done. cbn. by intros ->%String.eqb_eq. Qed.

Section RefreshFields.

Context (cfg : config) (st : state) (meeting_id oid : string).
Context (fields : dict) (resp : response) (provider_json : dict).
Hypothesis Hid : ObjectId meeting_id = Ok oid.
Hypothesis Hdoc : meetings st !! oid = Some fields.
Hypothesis Htid : truthy (get fields "transcript_id") = true.
Hypothesis Hcompleted : eq_str (get fields "status") "completed" = false.
Hypothesis Herror : eq_str (get fields "status") "error" = false.
Hypothesis Hkey : configured cfg = true.
Hypothesis Hsend : send cfg (fetch_request cfg (get fields "transcript_id")) = Some resp.
Hypothesis Hcode : (status_code resp < 400)%Z.
Hypothesis Hjson : resp_json resp = Some (VDict provider_json).

Local Abbreviation after := (get_meeting cfg meeting_id st).2.

(** When the provider reports ["completed"] and the payload is normalized,
    the refresh stores the status, the payload's text as the transcript, the
    language code, or the language when the code is missing, null or empty,
    and the segments of [to_speaker_segments] as the speakers. *)
Lemma refresh_persists_results (segments : list value) :
  eq_str (get_or provider_json "status" (get fields "status")) "completed" = true →
  to_speaker_segments provider_json = Ok segments →
  first_summary_is_object provider_json = true →
  stored_field after oid "status" = Some (VStr "completed")
  ∧ stored_field after oid "transcript" = Some (get provider_json "text")
  ∧ stored_field after oid "language"
    = Some (if truthy (get provider_json "language_code")
            then get provider_json "language_code"
            else get provider_json "language")
  ∧ stored_field after oid "speakers" = Some (VList segments).
Proof.
  intros Hnew Hsegs Hfirst.
  rewrite (refresh_run cfg st meeting_id oid fields resp provider_json) by done.
  rewrite update_fields_of_completed, Hsegs, (summary_of_amended _ Hfirst) by done.
  cbn [mbind result_bind snd]. unfold stored_field. cbn [meetings].
  rewrite lookup_insert_eq. cbn [mbind option_bind].
  rewrite (eq_str_true _ _ Hnew).
  repeat split; apply lookup_union_Some_l;
    unfold completed_fields, status_fields; by simplify_map_eq.
Qed.

(** When the provider's answer has no ["status"], the refresh keeps the
    status the meeting had, stores the answer, and changes no other field. *)
Lemma refresh_without_status (k : string) :
  provider_json !! "status" = None →
  k ≠ "status" → k ≠ "raw_provider_response" →
  (∃ doc, (get_meeting cfg meeting_id st).1 = Ok doc)
  ∧ stored_field after oid "status" = Some (get fields "status")
  ∧ stored_field after oid "raw_provider_response" = Some (VDict provider_json)
  ∧ stored_field after oid k = stored_field st oid k.
Proof.
  intros Hnone Hk1 Hk2.
  rewrite (refresh_run cfg st meeting_id oid fields resp provider_json) by done.
  assert (get_or provider_json "status" (get fields "status") = get fields "status") as Hsame
    by (unfold get_or; by rewrite Hnone).
  rewrite update_fields_of_other by by rewrite Hsame.
  rewrite Hsame. cbn [fst snd]. unfold stored_field. cbn [meetings].
  rewrite lookup_insert_eq, Hdoc. cbn [mbind option_bind]. unfold status_fields.
  split; [by eexists|]. split; [|split].
  - apply lookup_union_Some_l. by simplify_map_eq.
  - apply lookup_union_Some_l. by simplify_map_eq.
  - apply lookup_union_r. by simplify_map_eq.
Qed.

End RefreshFields.

Lemma refresh_persists_results_witness :
  stored_field (get_meeting (sample_cfg (VDict completed_payload)) sample_oid
                  (sample_state processing_fields)).2 sample_oid "status"
  = Some (VStr "completed")
  ∧ stored_field (get_meeting (sample_cfg (VDict completed_payload)) sample_oid
                    (sample_state processing_fields)).2 sample_oid "transcript"
    = Some (get completed_payload "text")
  ∧ stored_field (get_meeting (sample_cfg (VDict completed_payload)) sample_oid
                    (sample_state processing_fields)).2 sample_oid "language"
    = Some (if truthy (get completed_payload "language_code")
            then get completed_payload "language_code"
            else get completed_payload "language")
  ∧ stored_field (get_meeting (sample_cfg (VDict completed_payload)) sample_oid
                    (sample_state processing_fields)).2 sample_oid "speakers"
    = Some (VList [claimed_segment sample_utterance]).
Proof.
  apply (refresh_persists_results (sample_cfg (VDict completed_payload))
           (sample_state processing_fields) sample_oid sample_oid processing_fields
           (sample_response (VDict completed_payload)) completed_payload).
  - by_computation.
  - by_computation.
  - by_computation.
  - by_computation.
  - by_computation.
  - by_computation.
  - by_computation.
  - by_computation.
  - by_computation.
  - by_computation.
  - by_computation.
  - by_computation.
Defined.

Lemma refresh_without_status_witness :
  (∃ doc, (get_meeting (sample_cfg (VDict ∅)) sample_oid
             (sample_state processing_fields)).1 = Ok doc)
  ∧ stored_field (get_meeting (sample_cfg (VDict ∅)) sample_oid
                    (sample_state processing_fields)).2 sample_oid "status"
    = Some (get processing_fields "status")
  ∧ stored_field (get_meeting (sample_cfg (VDict ∅)) sample_oid
                    (sample_state processing_fields)).2 sample_oid "raw_provider_response"
    = Some (VDict ∅)
  ∧ stored_field (get_meeting (sample_cfg (VDict ∅)) sample_oid
                    (sample_state processing_fields)).2 sample_oid "title"
    = stored_field (sample_state processing_fields) sample_oid "title".
Proof.
  apply (refresh_without_status (sample_cfg (VDict ∅))
           (sample_state processing_fields) sample_oid sample_oid processing_fields
           (sample_response (VDict ∅)) ∅).
  - by_computation.
  - by_computation.
  - by_computation.
  - by_computation.
  - by_computation.
  - by_computation.
  - by_computation.
  - by_computation.
  - by_computation.
  - by_computation.
  - apply (bool_decide_unpack _). vm_compute. exact I.
  - apply (bool_decide_unpack _). vm_compute. exact I.
Defined.

(** ** Uploads *)

Lemma upload_to_assemblyai_state (cfg : config) (st : state) (file_bytes : list Byte.byte) :
  (∃ e, upload_to_assemblyai cfg file_bytes st = (Raise e, st))
  ∨ (∃ r, upload_to_assemblyai cfg file_bytes st
          = (r, logged st (EvRequest (upload_request cfg file_bytes)))).
Proof.
  destruct (configured cfg) eqn:Hkey.
  - right. pose proof (upload_to_assemblyai_sends cfg st file_bytes Hkey) as H.
    destruct (upload_to_assemblyai cfg file_bytes st) as [r st1]. cbn in H. subst st1.
    by eexists.
  - left. unfold upload_to_assemblyai. rewrite (aai_headers_unconfigured _ Hkey). run.
    by eexists.
Qed.

Lemma create_transcript_state (cfg : config) (st : state) (upload_url : value) :
  (∃ e, create_transcript cfg upload_url st = (Raise e, st))
  ∨ (∃ r, create_transcript cfg upload_url st
          = (r, logged st (EvRequest (transcript_request cfg upload_url)))).
Proof.
  destruct (configured cfg) eqn:Hkey.
  - right. rewrite create_transcript_request by done. unfold requests_send. run.
    fold (logged st (EvRequest (transcript_request cfg upload_url))).
    destruct (send cfg _) as [resp|]; run; [|by eexists].
    destruct (_ <=? _)%Z; run; by eexists.
  - left. unfold create_transcript. rewrite (aai_headers_unconfigured _ Hkey). run.
    by eexists.
Qed.

Lemma upload_meeting_nonempty (cfg : config) (st : state) (f : UploadFile) :
  (0 < length (file f))%nat →
  upload_meeting cfg f st
  = (upload_url ← upload_to_assemblyai cfg (file f);
     transcript ← create_transcript cfg upload_url;
     transcript_id ← lift (attr_get transcript "id");
     reported ← lift (attr_get_or transcript "status" (VStr "processing"));
     meeting_doc ← lift (Meeting_new (dump_optional_str (filename f)) "upload"
                           transcript_id "assemblyai" reported);
     inserted_id ← create_document cfg "meeting" meeting_doc;
     mret {| MeetingCreateResponse.id := inserted_id;
             MeetingCreateResponse.status := status meeting_doc |}) st.
Proof.
  intros Hlen. unfold upload_meeting. rewrite bind_run.
  assert ((if negb (content_type_in (content_type f) allowed_content_types)
           then mret () else mret () : M unit) st = (Ok (), st)) as ->
    by by destruct (negb _).
  by destruct (Nat.eqb_spec (length (file f)) 0) as [E|_]; [lia|].
Qed.

(** A successful upload: the file is not empty and the provider answers
    both requests below 400, the first with an upload URL, the second with a
    JSON object whose ["id"] is a string or null and whose ["status"], if
    given, is a string. Then [upload_meeting] sends the upload and the job
    creation for that URL, inserts one meeting that holds the file name, the
    job id and the status reported (["processing"] when none is), and
    returns the new id with that status. *)
Lemma upload_meeting_success (cfg : config) (st : state) (f : UploadFile)
    (r1 r2 : response) (uploaded job : dict) (upload_url : value)
    (job_id : option string) (reported : string) :
  (0 < length (file f))%nat →
  configured cfg = true →
  send cfg (upload_request cfg (file f)) = Some r1 →
  (status_code r1 < 400)%Z →
  resp_json r1 = Some (VDict uploaded) →
  uploaded !! "upload_url" = Some upload_url →
  truthy upload_url = true →
  send cfg (transcript_request cfg upload_url) = Some r2 →
  (status_code r2 < 400)%Z →
  resp_json r2 = Some (VDict job) →
  get job "id" = dump_optional_str job_id →
  get_or job "status" (VStr "processing") = VStr reported →
  let oid := new_id cfg (meetings st) in
  let meeting := Meeting_dump (new_meeting (filename f) job_id reported) in
  upload_meeting cfg f st
  = (Ok {| MeetingCreateResponse.id := oid; MeetingCreateResponse.status := reported |},
     {| meetings := <[oid := meeting]> (meetings st);
        trace := (trace st ++ [EvRequest (upload_request cfg (file f));
                               EvRequest (transcript_request cfg upload_url);
                               EvInsertOne oid meeting])%list |}).
Proof.
  intros Hlen Hkey H1 C1 J1 Hu Htrue H2 C2 J2 Hid Hst oid meeting.
  rewrite upload_meeting_nonempty by done. rewrite bind_run.
  assert (upload_to_assemblyai cfg (file f) st
          = (Ok upload_url, logged st (EvRequest (upload_request cfg (file f))))) as ->.
  { by apply upload_to_assemblyai_answered with r1 uploaded. }
  rewrite bind_run, create_transcript_request by done. rewrite bind_run.
  rewrite (requests_send_answered _ _ _ _ H2).
  destruct (Z.leb_spec 400 (status_code r2)); [lia|]. unfold json. rewrite J2. run.
  cbn [attr_get attr_get_or]. run. rewrite Hid, Hst.
  assert (Meeting_new (dump_optional_str (filename f)) "upload" (dump_optional_str job_id)
            "assemblyai" (VStr reported)
          = Ok (new_meeting (filename f) job_id reported)) as ->
    by by destruct (filename f), job_id.
  run. unfold create_document. cbn [logged meetings trace status new_meeting].
  by rewrite <- !(assoc_L (++)).
Qed.

Lemma upload_meeting_success_witness :
  let cfg := sample_cfg (VDict sample_job) in
  let f := {| filename := Some "standup.mp3"; content_type := Some "audio/mpeg";
              file := [Byte.x52; Byte.x49] |} in
  let oid := new_id cfg (meetings (sample_state ∅)) in
  let meeting := Meeting_dump (new_meeting (filename f) (Some "t9") "processing") in
  upload_meeting cfg f (sample_state ∅)
  = (Ok {| MeetingCreateResponse.id := oid; MeetingCreateResponse.status := "processing" |},
     {| meetings := <[oid := meeting]> (meetings (sample_state ∅));
        trace := (trace (sample_state ∅)
                  ++ [EvRequest (upload_request cfg (file f));
                      EvRequest (transcript_request cfg
                                   (VStr "https://cdn.assemblyai.com/upload/1"));
                      EvInsertOne oid meeting])%list |}).
Proof.
  apply (upload_meeting_success (sample_cfg (VDict sample_job)) (sample_state ∅)
           {| filename := Some "standup.mp3"; content_type := Some "audio/mpeg";
              file := [Byte.x52; Byte.x49] |}
           (sample_response (VDict sample_job)) (sample_response (VDict sample_job))
           sample_job sample_job (VStr "https://cdn.assemblyai.com/upload/1")
           (Some "t9") "processing").
  - simpl. lia.
  - by_computation.
  - by_computation.
  - by_computation.
  - by_computation.
  - by_computation.
  - by_computation.
  - by_computation.
  - by_computation.
  - by_computation.
  - by_computation.
  - by_computation.
Defined.

(** An upload that raises has stored nothing, and has sent at most the two
    requests of a successful one. *)
Lemma upload_meeting_failure_keeps_store (cfg : config) (st st' : state)
    (f : UploadFile) (e : exn) :
  upload_meeting cfg f st = (Raise e, st') →
  meetings st' = meetings st
  ∧ ∃ requests, trace st' = (trace st ++ (EvRequest <$> requests))%list
      ∧ (length requests ≤ 2)%nat.
Proof.
  destruct (Nat.eqb_spec (length (file f)) 0) as [Hlen|Hlen].
  { unfold upload_meeting. rewrite bind_run.
    assert ((if negb (content_type_in (content_type f) allowed_content_types)
             then mret () else mret () : M unit) st = (Ok (), st)) as ->
      by by destruct (negb _).
    rewrite Hlen. cbn [Nat.eqb raise]. intros [= <- <-]. split; [done|].
    exists []. cbn [fmap list_fmap length]. split; [by rewrite (right_id_L [] (++))|lia]. }
  rewrite upload_meeting_nonempty by lia. rewrite bind_run.
  destruct (upload_to_assemblyai_state cfg st (file f)) as [[e1 ->]|[r1 ->]].
  { intros [= <- <-]. split; [done|].
    exists []. cbn [fmap list_fmap length]. split; [by rewrite (right_id_L [] (++))|lia]. }
  destruct r1 as [upload_url|e1].
  2:{ intros [= <- <-]. split; [done|]. exists [upload_request cfg (file f)]. split; [done|cbn; lia]. }
  rewrite bind_run.
  destruct (create_transcript_state cfg
              (logged st (EvRequest (upload_request cfg (file f)))) upload_url)
    as [[e2 ->]|[r2 ->]].
  { intros [= <- <-]. split; [done|]. exists [upload_request cfg (file f)]. split; [done|cbn; lia]. }
  assert (∀ st2, st2 = logged (logged st (EvRequest (upload_request cfg (file f))))
                         (EvRequest (transcript_request cfg upload_url)) →
                 meetings st2 = meetings st
                 ∧ ∃ requests, trace st2 = (trace st ++ (EvRequest <$> requests))%list
                     ∧ (length requests ≤ 2)%nat) as Htwo.
  { intros st2 ->. split; [done|].
    exists [upload_request cfg (file f); transcript_request cfg upload_url].
    cbn [logged trace]. split; [by rewrite <- (assoc_L (++))|cbn; lia]. }
  destruct r2 as [transcript|e2]; [|intros [= <- <-]; by apply Htwo].
  run. destruct (attr_get transcript "id") as [transcript_id|];
    [|intros [= <- <-]; by apply Htwo].
  run. destruct (attr_get_or transcript "status" (VStr "processing")) as [reported|];
    [|intros [= <- <-]; by apply Htwo].
  run. destruct (Meeting_new _ _ _ _ _) as [meeting_doc|];
    [|intros [= <- <-]; by apply Htwo].
  run. unfold create_document. by run.
Qed.

Lemma upload_meeting_failure_keeps_store_witness :
  meetings (logged (sample_state ∅)
              (EvRequest (upload_request sample_cfg_failing [Byte.x52])))
  = meetings (sample_state ∅)
  ∧ ∃ requests,
      trace (logged (sample_state ∅)
               (EvRequest (upload_request sample_cfg_failing [Byte.x52])))
      = (trace (sample_state ∅) ++ (EvRequest <$> requests))%list
      ∧ (length requests ≤ 2)%nat.
Proof.
  apply (upload_meeting_failure_keeps_store sample_cfg_failing _ _
           {| filename := None; content_type := None; file := [Byte.x52] |}
           (HTTPException 502 "AssemblyAI upload error: busy")).
  by_computation.
Defined.

(** ** The shape of the segments *)

Lemma utterance_segment_is_segment (utt seg : value) :
  utterance_segment utt = Ok seg → is_segment seg.
Proof.
  unfold utterance_segment. destruct utt as [| | | | | |d|]; try done.
  cbn [attr_get attr_get_or mbind result_bind].
  destruct (seconds (get d "start")) as [st|]; [|done]. cbn [mbind result_bind].
  destruct (seconds (get d "end")) as [en|]; [|done]. cbn [mbind result_bind].
  destruct (SpeakerSegment_new _ _ _ _) as [s|]; [|done]. cbn [mbind result_bind].
  intros [= <-]. by exists s.
Qed.

Lemma utterance_segments_each (utterances segments : list value) :
  utterance_segments utterances = Ok segments →
  Forall2 (fun utt seg => utterance_segment utt = Ok seg) utterances segments.
Proof.
  revert segments. induction utterances as [|utt rest IH]; intros segments.
  - intros [= <-]. constructor.
  - cbn [utterance_segments].
    destruct (utterance_segment utt) as [seg|] eqn:Hseg; [|done]. cbn [mbind result_bind].
    destruct (utterance_segments rest) as [segs|]; [|done]. cbn [mbind result_bind].
    intros [= <-]. constructor; [done|by apply IH].
Qed.

(** Whatever the payload, every segment [to_speaker_segments] returns is the
    dump of a [SpeakerSegment]. *)
Lemma to_speaker_segments_shape (provider_json : dict) (segments : list value) :
  to_speaker_segments provider_json = Ok segments → Forall is_segment segments.
Proof.
  unfold to_speaker_segments.
  destruct (iterate _) as [utterances|]; [|done]. cbn [mbind result_bind].
  destruct (utterance_segments utterances) as [segs|] eqn:Hsegs; [|done].
  cbn [mbind result_bind].
  assert (Forall is_segment segs) as Hall.
  { apply utterance_segments_each in Hsegs. induction Hsegs; constructor; [|done].
    by eapply utterance_segment_is_segment. }
  destruct segs as [|seg segs]; [|by intros [= <-]].
  destruct (truthy _); [|by intros [= <-]].
  destruct (SpeakerSegment_new _ _ _ _) as [s|]; [|done]. cbn [mbind result_bind].
  intros [= <-]. constructor; [by exists s|constructor].
Qed.

Lemma to_speaker_segments_shape_witness :
  Forall is_segment
    [SpeakerSegment_dump {| speaker := Some "Speaker 1"; text := "hello world";
                            start := None; end_ := None |}].
Proof.
  apply (to_speaker_segments_shape flat_text_payload). by_computation.
Defined.

(** Utterances are normalized all or none: when the payload has a
    non-empty list of utterances and [to_speaker_segments] returns, it
    returns as many segments as there are utterances, the n-th being the
    segment of the n-th utterance; an utterance that is refused leaves no
    segment of the others. *)
Lemma to_speaker_segments_all_or_none (provider_json : dict)
    (utterances segments : list value) :
  provider_json !! "utterances" = Some (VList utterances) →
  (0 < length utterances)%nat →
  to_speaker_segments provider_json = Ok segments →
  length segments = length utterances
  ∧ Forall2 (fun utt seg => utterance_segment utt = Ok seg) utterances segments.
Proof.
  intros Hget Hlen. unfold to_speaker_segments, get at 1. rewrite Hget.
  destruct utterances as [|utt rest]; [cbn in Hlen; lia|].
  cbn [default from_option id py_or truthy iterate mbind result_bind].
  destruct (utterance_segments (utt :: rest)) as [segs|] eqn:Hsegs; [|done].
  cbn [mbind result_bind]. apply utterance_segments_each in Hsegs.
  destruct segs as [|seg segs]; [by apply Forall2_nil_inv_r in Hsegs|].
  intros [= <-]. split; [|done]. symmetry. by eapply Forall2_length.
Qed.

Lemma to_speaker_segments_all_or_none_witness :
  length [claimed_segment sample_utterance] = length [sample_utterance]
  ∧ Forall2 (fun utt seg => utterance_segment utt = Ok seg)
      [sample_utterance] [claimed_segment sample_utterance].
Proof.
  apply (to_speaker_segments_all_or_none utterance_payload).
  - by_computation.
  - simpl. lia.
  - by_computation.
Defined.

Lemma iterate_truthy (v : value) (l : list value) :
  truthy v = true → iterate v = Ok l → l ≠ [].
Proof.
  destruct v as [| | | |s|l'|d|]; try done; cbn [truthy iterate].
  - destruct s; [done|]. by intros _ [= <-].
  - destruct l'; [done|]. by intros _ [= <-].
  - destruct (map_to_list d); [done|]. by intros _ [= <-].
Qed.

(** The top-level text only serves as a fallback: whenever the payload has
    utterances (a true ["utterances"]), what [to_speaker_segments] does is
    the same whatever the top-level text. *)
Lemma to_speaker_segments_ignores_text (provider_json : dict) (text : value) :
  truthy (get provider_json "utterances") = true →
  to_speaker_segments (<["text" := text]> provider_json)
  = to_speaker_segments provider_json.
Proof.
  intros Hutt. unfold to_speaker_segments. rewrite get_insert_ne by done.
  unfold py_or. rewrite Hutt.
  destruct (iterate _) as [utterances|] eqn:Hiter; [|done]. cbn [mbind result_bind].
  apply (iterate_truthy _ _ Hutt) in Hiter.
  destruct utterances as [|utt rest]; [done|]. cbn [utterance_segments].
  destruct (utterance_segment utt); [|done]. cbn [mbind result_bind].
  by destruct (utterance_segments rest).
Qed.

Lemma to_speaker_segments_ignores_text_witness :
  to_speaker_segments (<["text" := VStr "hello world"]> utterance_payload)
  = to_speaker_segments utterance_payload.
Proof. apply to_speaker_segments_ignores_text. by_computation. Defined.

(** ** Reads of a pending meeting while the provider fails *)

(** A stored meeting that needs a refresh is not returned when the fetch
    raises, be it for a missing credential, a request that does not
    complete, an answer of status 400 or more or an answer that is not
    JSON: the read raises what the fetch raised, and the store is as it
    was. *)
Lemma get_meeting_fetch_failure (cfg : config) (st st1 : state)
    (meeting_id oid : string) (fields : dict) (e : exn) :
  ObjectId meeting_id = Ok oid →
  meetings st !! oid = Some fields →
  needs_refresh fields = true →
  fetch_transcript cfg (get fields "transcript_id") st = (Raise e, st1) →
  get_meeting cfg meeting_id st = (Raise e, st1) ∧ meetings st1 = meetings st.
Proof.
  intros Hid Hdoc Hrefresh Hfetch. split.
  - unfold get_meeting. rewrite Hid. run. rewrite (find_one_Some _ _ _ Hdoc). run.
    rewrite truthy_insert. run. rewrite !get_insert_ne by done.
    fold (needs_refresh fields). rewrite Hrefresh. run. by rewrite Hfetch.
  - destruct (fetch_transcript_state cfg st (get fields "transcript_id"))
      as [[e' H]|[r H]]; rewrite Hfetch in H; by injection H as _ ->.
Qed.

Lemma get_meeting_fetch_failure_witness :
  get_meeting sample_cfg_no_key sample_oid (sample_state processing_fields)
  = (Raise (HTTPException 500 "ASSEMBLYAI_API_KEY not set in environment"),
     sample_state processing_fields)
  ∧ meetings (sample_state processing_fields) = meetings (sample_state processing_fields).
Proof.
  apply (get_meeting_fetch_failure sample_cfg_no_key _ _ sample_oid sample_oid
           processing_fields).
  - by_computation.
  - by_computation.
  - by_computation.
  - by_computation.
Defined.
